(** * Digital signage CMS: the screen-assignment model of [app.py]

    The Flask handlers of [app.py] are embedded as functions over an
    explicit database state [Db]: the two MongoDB collections
    ([content_collection], [screens_collection]) and the files of the
    upload folder.  Every handler takes the state it reads and returns
    the state it leaves behind together with what it answers (the
    flashed message and redirect, the JSON body, or the template
    arguments). *)

From Stdlib Require Import Ascii String.
From stdpp Require Import base strings gmap list pretty sorting.

Open Scope string_scope.
Open Scope list_scope.

(** ** [bson.ObjectId]

    An ObjectId wraps the bytes it was built from and compares by them;
    [str] prints them as lower-case hexadecimal digits.  The constructor
    [ObjectId(s)] takes a text of 24 characters that [bytes.fromhex]
    accepts and raises [InvalidId] for every other text.  Because
    [bytes.fromhex] passes over white space between bytes, a text of 24
    characters may yield fewer than twelve bytes.  The value is kept here
    in its printed form. *)

Record ObjectId := Oid { oid_hex : string }.

Global Instance ObjectId_eq_dec : EqDecision ObjectId.
Proof. solve_decision. Defined.

Definition is_hex_digit (a : ascii) : bool :=
  match a with
  | "0" | "1" | "2" | "3" | "4" | "5" | "6" | "7" | "8" | "9"
  | "a" | "b" | "c" | "d" | "e" | "f"
  | "A" | "B" | "C" | "D" | "E" | "F" => true
  | _ => false
  end%char.

Definition hex_lower (a : ascii) : ascii :=
  match a with
  | "A" => "a" | "B" => "b" | "C" => "c"
  | "D" => "d" | "E" => "e" | "F" => "f"
  | _ => a
  end%char.

(** ASCII white space: the space and the characters 9 to 13. *)
Definition is_space (a : ascii) : bool :=
  let n := N_of_ascii a in
  ((n =? 32) || ((9 <=? n) && (n <=? 13)))%N.

(** [bytes.fromhex(s)], with the bytes in printed form: white space is
    passed over before each byte, and a byte is two hexadecimal digits
    next to each other.  [None] stands for [ValueError]. *)
Fixpoint fromhex (s : string) : option string :=
  match s with
  | EmptyString => Some EmptyString
  | String top s' =>
      if is_space top then fromhex s'
      else if is_hex_digit top then
        match s' with
        | String bot s'' =>
            if is_hex_digit bot then
              (λ rest, String (hex_lower top) (String (hex_lower bot) rest))
                <$> fromhex s''
            else None
        | EmptyString => None
        end
      else None
  end.

(** [ObjectId(s)]: [None] stands for the [InvalidId] exception. *)
Definition ObjectId_of_str (s : string) : option ObjectId :=
  if decide (String.length s = 24) then Oid <$> fromhex s else None.

(** [str(oid)] *)
Definition ObjectId_str (o : ObjectId) : string := oid_hex o.

(** ** Documents and collections *)

(** A document of [db.content], as [upload_file] writes it.  The
    [upload_date] is a point in time, kept as a number of milliseconds. *)
Record content_doc := ContentDoc {
  _id : ObjectId;
  filename : string;
  filepath : string;
  mimetype : string;
  upload_date : Z
}.

(** A document of [db.screens] is [{'_id': screen_id,
    'assigned_content_id': v}] with [v] an ObjectId or [None]; both
    writers of the collection ([assign_content], [get_screen_content])
    set exactly these two fields.  The collection is keyed by its unique
    string [_id], so it is a finite map from the screen id to the value of
    [assigned_content_id]. *)
Record Db := MkDb {
  content_collection : list content_doc;
  screens_collection : gmap string (option ObjectId);
  upload_folder : gset string
}.

(** *** Collection primitives used by the handlers *)

(** [content_collection.find_one({'_id': oid})] *)
Definition content_find_one (oid : ObjectId) (coll : list content_doc)
  : option content_doc :=
  List.find (λ c, bool_decide (_id c = oid)) coll.

(** [content_collection.delete_one({'_id': oid})]: the first match goes. *)
Fixpoint content_delete_one (oid : ObjectId) (coll : list content_doc)
  : list content_doc :=
  match coll with
  | [] => []
  | c :: coll' =>
      if decide (_id c = oid) then coll' else c :: content_delete_one oid coll'
  end.

(** [content_collection.insert_one(doc)] *)
Definition content_insert_one (doc : content_doc) (coll : list content_doc)
  : list content_doc :=
  coll ++ [doc].

(** [screens_collection.count_documents({'assigned_content_id': oid})] *)
Definition count_documents (oid : ObjectId)
    (screens : gmap string (option ObjectId)) : nat :=
  length (filter (λ kv, kv.2 = Some oid) (map_to_list screens)).

(** [os.path.exists(p)] then [os.remove(p)] inside the upload folder *)
Definition remove_if_exists (name : string) (files : gset string)
  : gset string :=
  if decide (name ∈ files) then files ∖ {[ name ]} else files.

(** ** Handler results *)

Inductive endpoint := ep_index | ep_manage_screens.

(** [flash(msg); return redirect(url_for(endpoint))] *)
Record redirected := Redirected {
  flashed : string;
  location : endpoint;
  db_after : Db
}.

(** ** [delete_content] *)

Definition content_in_use_message (screen_count : nat) : string :=
  "Cannot delete content: It is currently assigned to "
    +:+ pretty screen_count +:+ " screen(s).".

Definition delete_content (content_id : string) (db : Db) : redirected :=
  match ObjectId_of_str content_id with
  | None => Redirected "Invalid content ID." ep_index db
  | Some obj_id =>
      let screen_count := count_documents obj_id (screens_collection db) in
      if decide (0 < screen_count) then
        Redirected (content_in_use_message screen_count) ep_index db
      else
        match content_find_one obj_id (content_collection db) with
        | Some content_item =>
            let files := remove_if_exists (filename content_item)
                                          (upload_folder db) in
            let coll := content_delete_one obj_id (content_collection db) in
            Redirected "Content deleted successfully." ep_index
                       (MkDb coll (screens_collection db) files)
        | None => Redirected "Content not found." ep_index db
        end
  end.

(** ** [delete_screen] *)

Definition delete_screen (screen_id : string) (db : Db) : redirected :=
  Redirected ("Screen " +:+ screen_id +:+ " deleted.") ep_manage_screens
    (MkDb (content_collection db)
          (delete screen_id (screens_collection db))
          (upload_folder db)).

(** ** The aggregation stages of the two listings

    A projected row is a document with optional fields, so it is a finite
    map from field names to values. *)

Inductive value := VNull | VStr (s : string) | VOid (o : ObjectId).

Global Instance value_eq_dec : EqDecision value.
Proof. solve_decision. Defined.

Definition value_of_ref (v : option ObjectId) : value :=
  match v with
  | Some oid => VOid oid
  | None => VNull
  end.

(** A screen document on its way through the pipeline: after [$lookup]
    the field [assigned_content] holds the matching content documents,
    after [$unwind] it holds one of them or is missing. *)
Record looked_up := LookedUp {
  lu_id : string;
  lu_assigned_content_id : option ObjectId;
  lu_assigned_content : list content_doc
}.

Record unwound := Unwound {
  uw_id : string;
  uw_assigned_content_id : option ObjectId;
  uw_assigned_content : option content_doc
}.

(** [{'$lookup': {'from': 'content', 'localField': 'assigned_content_id',
    'foreignField': '_id', 'as': 'assigned_content'}}].  A null local
    field matches only foreign documents whose [_id] is null or missing,
    and every content document carries an ObjectId. *)
Definition lookup_stage (content : list content_doc)
    (screens : list (string * option ObjectId)) : list looked_up :=
  (λ '(sid, ref),
     LookedUp sid ref
       match ref with
       | Some oid => filter (λ c, _id c = oid) content
       | None => []
       end) <$> screens.

(** [{'$unwind': {'path': '$assigned_content',
    'preserveNullAndEmptyArrays': True}}] *)
Definition unwind_stage (docs : list looked_up) : list unwound :=
  docs ≫= λ d,
    match lu_assigned_content d with
    | [] => [Unwound (lu_id d) (lu_assigned_content_id d) None]
    | cs => (λ c, Unwound (lu_id d) (lu_assigned_content_id d) (Some c)) <$> cs
    end.

(** A [$project] field whose expression resolves to nothing is left out. *)
Definition set_field (k : string) (v : option value)
    (doc : gmap string value) : gmap string value :=
  match v with
  | Some x => <[k := x]> doc
  | None => doc
  end.

(** The [$project] of [index]:
    [{'_id': 0, 'id': '$_id', 'assigned_content_id': '$assigned_content_id',
      'filename': '$assigned_content.filename'}] *)
Definition index_project (d : unwound) : gmap string value :=
  set_field "filename" ((λ c, VStr (filename c)) <$> uw_assigned_content d)
    (set_field "assigned_content_id"
               (Some (value_of_ref (uw_assigned_content_id d)))
       (set_field "id" (Some (VStr (uw_id d))) ∅)).

(** The [$project] of [manage_screens]:
    [{'id': '$_id', 'assigned_content_id': '$assigned_content_id',
      'filename': '$assigned_content.filename'}].  Without ['_id': 0] the
    stage keeps the document's [_id]. *)
Definition manage_screens_project (d : unwound) : gmap string value :=
  set_field "filename" ((λ c, VStr (filename c)) <$> uw_assigned_content d)
    (set_field "assigned_content_id"
               (Some (value_of_ref (uw_assigned_content_id d)))
       (set_field "id" (Some (VStr (uw_id d))) {[ "_id" := VStr (uw_id d) ]})).

(** ** [manage_screens] *)

Record screens_page := ScreensPage {
  sp_screens : list (gmap string value);
  sp_content : list content_doc
}.

Definition manage_screens (db : Db) : screens_page :=
  let screens_cursor :=
    manage_screens_project <$>
      unwind_stage
        (lookup_stage (content_collection db)
                      (map_to_list (screens_collection db))) in
  ScreensPage screens_cursor (content_collection db).

(** ** JSON body of the polling API *)

Record content_json := ContentJson {
  cj_content_id : string;
  cj_filename : string;
  cj_url : string;
  cj_mimetype : string
}.

(** [{'screen_id': .., 'content': .. | None, 'message'?: ..}] *)
Record response_data := ResponseData {
  rd_screen_id : string;
  rd_content : option content_json;
  rd_message : option string
}.

(** ** [cursor.sort(key, direction)]

    The server sorts the documents of the cursor on one key, ascending
    for the direction [1] and descending for [-1].  It sorts in memory
    with a stable sort, so documents with equal keys keep the order in
    which [find()] yields them, which is the order of the collection. *)

(** [a] may stand before [b]. *)
Definition sorts_before (key : content_doc → Z) (direction : Z)
    (a b : content_doc) : Prop :=
  if decide (direction = (-1)%Z) then (key b ≤ key a)%Z else (key a ≤ key b)%Z.

Global Instance sorts_before_dec key direction a b :
  Decision (sorts_before key direction a b).
Proof. unfold sorts_before. destruct (decide _); apply _. Defined.

Fixpoint sort_insert (key : content_doc → Z) (direction : Z)
    (doc : content_doc) (sorted : list content_doc) : list content_doc :=
  match sorted with
  | [] => [doc]
  | next :: rest =>
      if decide (sorts_before key direction doc next)
      then doc :: next :: rest
      else next :: sort_insert key direction doc rest
  end.

Fixpoint cursor_sort (key : content_doc → Z) (direction : Z)
    (docs : list content_doc) : list content_doc :=
  match docs with
  | [] => []
  | doc :: rest => sort_insert key direction doc (cursor_sort key direction rest)
  end.

Section Handlers.

(** What the handlers obtain from their libraries: Flask's
    [url_for('static', filename=.., _external=True)] and the text of
    bson's [InvalidId] exception for a rejected string. *)
Context (url_for_static : string → string).
Context (InvalidId_text : string → string).

(** *** [index] *)

Record index_page := IndexPage {
  ip_content : list (content_doc * string);
  ip_screens : list (gmap string value)
}.

Definition index (db : Db) : index_page :=
  let content_cursor :=
    cursor_sort upload_date (-1) (content_collection db) in
  let content := (λ item, (item, ObjectId_str (_id item))) <$> content_cursor in
  let screens_cursor :=
    index_project <$>
      unwind_stage
        (lookup_stage (content_collection db)
                      (map_to_list (screens_collection db))) in
  IndexPage content screens_cursor.

(** *** [assign_content] *)

(** Lines up to and including [update_one(.., upsert=True)]: the parsed
    id and the database after the write, or the early redirect.  The
    [find_one] before the write only feeds the debug log. *)
Definition assign_content_write (screen_id content_id : string) (db : Db)
  : redirected + (option ObjectId * Db) :=
  let parsed :=
    if decide (content_id ≠ "")
    then Some <$> ObjectId_of_str content_id
    else Some None in
  match parsed with
  | None =>
      inl (Redirected ("Invalid content ID selected: "
                         +:+ InvalidId_text content_id)
                      ep_manage_screens db)
  | Some obj_content_id =>
      inr (obj_content_id,
           MkDb (content_collection db)
                (<[screen_id := obj_content_id]> (screens_collection db))
                (upload_folder db))
  end.

(** The block between [VERIFY AFTER UPDATE] and [END VERIFY]. *)
Definition assign_content_verify (screen_id content_id : string)
    (obj_content_id : option ObjectId) (db : Db) : redirected :=
  let updated_screen_data := screens_collection db !! screen_id in
  match updated_screen_data with
  | Some stored =>
      if decide (content_id ≠ "" ∧ stored = obj_content_id) then
        Redirected ("Content assigned to screen " +:+ screen_id
                      +:+ " successfully!") ep_manage_screens db
      else if decide (content_id = "" ∧ stored = None) then
        Redirected ("Content unassigned from screen " +:+ screen_id
                      +:+ " successfully!") ep_manage_screens db
      else
        Redirected ("Content assignment to screen " +:+ screen_id
                      +:+ " failed verification!") ep_manage_screens db
  | None =>
      Redirected ("Screen " +:+ screen_id
                    +:+ " not found after assignment attempt!")
                 ep_manage_screens db
  end.

(** The handler with the writes of other requests, [others], landing
    between its [update_one] and its verifying [find_one]. *)
Definition assign_content_among (others : Db → Db)
    (screen_id content_id : string) (db : Db) : redirected :=
  match assign_content_write screen_id content_id db with
  | inl early => early
  | inr (obj_content_id, db') =>
      assign_content_verify screen_id content_id obj_content_id (others db')
  end.

(** The handler run on its own. *)
Definition assign_content (screen_id content_id : string) (db : Db)
  : redirected :=
  assign_content_among id screen_id content_id db.

(** *** [get_screen_content] *)

Definition get_screen_content (screen_id : string) (db : Db)
  : response_data * Db :=
  let screen_data := screens_collection db !! screen_id in
  match screen_data with
  | Some assigned_content_id =>
      match assigned_content_id with
      | Some oid =>
          match content_find_one oid (content_collection db) with
          | Some assigned_content =>
              let media_url :=
                url_for_static ("uploads/" +:+ filename assigned_content) in
              (ResponseData screen_id
                 (Some (ContentJson (ObjectId_str (_id assigned_content))
                                    (filename assigned_content)
                                    media_url
                                    (mimetype assigned_content)))
                 None, db)
          | None =>
              (ResponseData screen_id None
                 (Some "Assigned content not found. Content may have been deleted."),
               db)
          end
      | None =>
          (ResponseData screen_id None (Some "No content assigned yet."), db)
      end
  | None =>
      (ResponseData screen_id None
         (Some "Screen registered. No content assigned yet."),
       MkDb (content_collection db)
            (<[screen_id := None]> (screens_collection db))
            (upload_folder db))
  end.

End Handlers.

(** ** [allowed_file] and [upload_file] *)

(** [Config.ALLOWED_EXTENSIONS] *)
Definition ALLOWED_EXTENSIONS : gset string :=
  {[ "png"; "jpg"; "mov"; "jpeg"; "gif"; "mp4"; "webm"; "ogg" ]}.

Definition is_dot (a : ascii) : bool := Ascii.eqb a ".".

(** ['.' in s] *)
Fixpoint dot_in (s : string) : bool :=
  match s with
  | EmptyString => false
  | String a s' => if is_dot a then true else dot_in s'
  end.

(** [s.rsplit('.', 1)]: the text around the last dot, or the whole text
    when there is no dot. *)
Fixpoint rsplit_dot (s : string) : list string :=
  match s with
  | EmptyString => [EmptyString]
  | String a s' =>
      match rsplit_dot s' with
      | [stem; ext] => [String a stem; ext]
      | _ => if is_dot a then [EmptyString; s'] else [String a s']
      end
  end.

(** [s.lower()].  Only the letters A to Z matter to the comparison with
    the allowed extensions: no other character lowers to a text made of
    the characters that occur in them. *)
Definition ascii_lower (a : ascii) : ascii :=
  let n := N_of_ascii a in
  if ((65 <=? n) && (n <=? 90))%N then ascii_of_N (n + 32) else a.

Fixpoint str_lower (s : string) : string :=
  match s with
  | EmptyString => EmptyString
  | String a s' => String (ascii_lower a) (str_lower s')
  end.

Definition allowed_file (filename : string) : bool :=
  dot_in filename
  && match rsplit_dot filename !! 1%nat with
     | Some ext => bool_decide (str_lower ext ∈ ALLOWED_EXTENSIONS)
     | None => false
     end.

(** [sep.join(parts)] *)
Fixpoint str_join (sep : string) (parts : list string) : string :=
  match parts with
  | [] => EmptyString
  | [part] => part
  | part :: rest => part +:+ sep +:+ str_join sep rest
  end.

(** [Config.MAX_CONTENT_LENGTH], in bytes *)
Definition MAX_CONTENT_LENGTH : Z := 16 * 1024 * 1024.

(** The request as [upload_file] reads it: the method, the length of the
    body, and the entry ['file'] of [request.files] with its file name
    and MIME type.  The route answers GET and POST. *)
Inductive http_method := GET | POST.

Record file_storage := FileStorage {
  fs_filename : string;
  fs_mimetype : string
}.

Record upload_request := UploadRequest {
  req_method : http_method;
  req_content_length : Z;
  req_file : option file_storage
}.

(** [render_template('upload.html')], [redirect(request.url)],
    [redirect(url_for('index'))], and the 413 answer with which Flask
    ends a request whose body is longer than [MAX_CONTENT_LENGTH] when
    the handler first reads [request.files]. *)
Inductive upload_target :=
  render_upload_form | back_to_upload | to_index | too_large.

Record upload_response := UploadResponse {
  up_flashed : option string;
  up_target : upload_target;
  up_db : Db
}.

Section Upload.

(** werkzeug's [secure_filename], and the order in which Python walks the
    set [ALLOWED_EXTENSIONS] when the refusal message joins it. *)
Context (secure_filename : string → string).
Context (extensions_as_iterated : list string).

(** The handler with what it draws from outside: [datetime.now()] and
    the [_id] the driver gives the inserted document. *)
Definition upload_file (now : Z) (inserted_id : ObjectId)
    (request : upload_request) (db : Db) : upload_response :=
  match req_method request with
  | POST =>
      if decide (MAX_CONTENT_LENGTH < req_content_length request)%Z then
        UploadResponse None too_large db
      else
      match req_file request with
      | None => UploadResponse (Some "No file part") back_to_upload db
      | Some file =>
          if decide (fs_filename file = "") then
            UploadResponse (Some "No selected file") back_to_upload db
          else if allowed_file (fs_filename file) then
            let filename := secure_filename (fs_filename file) in
            let content_data :=
              ContentDoc inserted_id filename
                         ("/static/uploads/" +:+ filename)
                         (fs_mimetype file) now in
            UploadResponse (Some "File successfully uploaded") to_index
              (MkDb (content_insert_one content_data (content_collection db))
                    (screens_collection db)
                    ({[ filename ]} ∪ upload_folder db))
          else
            UploadResponse
              (Some ("Allowed file types are "
                       +:+ str_join ", " extensions_as_iterated))
              back_to_upload db
      end
  | GET => UploadResponse None render_upload_form db
  end.

End Upload.

(** ** Vocabulary of the statements *)

(** The content id resolves to a document of the content collection. *)
Definition content_exists (oid : ObjectId) (db : Db) : Prop :=
  ∃ c, c ∈ content_collection db ∧ _id c = oid.

(** [countAssignedTo]: the number of screens that reference the id. *)
Definition countAssignedTo (oid : ObjectId) (db : Db) : nat :=
  count_documents oid (screens_collection db).

(** The request was refused because the content is in use: the flashed
    message is the refusal text around a screen count in decimal. *)
Definition ContentInUse (r : redirected) : Prop :=
  ∃ count : nat,
    flashed r = "Cannot delete content: It is currently assigned to "
                  +:+ pretty count +:+ " screen(s).".

(** The rows of a listing that belong to one screen. *)
Definition screen_rows (screen_id : string) (rows : list (gmap string value))
  : list (gmap string value) :=
  filter (λ row, row !! "id" = Some (VStr screen_id)) rows.


(** The text holds ASCII white space. *)
Fixpoint has_space (s : string) : bool :=
  match s with
  | EmptyString => false
  | String a s' => is_space a || has_space s'
  end.

(** The text holds nothing but hexadecimal digits and ASCII white space. *)
Fixpoint only_hex_and_space (s : string) : bool :=
  match s with
  | EmptyString => true
  | String a s' => (is_hex_digit a || is_space a) && only_hex_and_space s'
  end.

(** What an accepted text and its bytes have in common. *)
Definition fromhex_result (s h : string) : Prop :=
  only_hex_and_space s = true
  ∧ (has_space s = false → String.length h = String.length s)
  ∧ (has_space s = true → String.length h < String.length s)
  ∧ fromhex h = Some h.

(** Every assignment of a screen points at a content document. *)
Definition no_dangling (db : Db) : Prop :=
  ∀ screen_id oid,
    screens_collection db !! screen_id = Some (Some oid) →
    content_exists oid db.

(** No two content documents share an [_id], as MongoDB enforces. *)
Definition unique_content_ids (db : Db) : Prop :=
  NoDup (_id <$> content_collection db).

(** *** Ordering of the content listing *)

(** [a] may stand before [b] in a listing by descending upload date. *)
Definition newer_first (a b : content_doc) : Prop :=
  (upload_date b ≤ upload_date a)%Z.

Global Instance newer_first_dec a b : Decision (newer_first a b).
Proof. unfold newer_first. apply _. Defined.


(** *** Sample data *)

Definition oid_a : ObjectId := Oid "65f0a1b2c3d4e5f601234567".
Definition oid_b : ObjectId := Oid "65f0a1b2c3d4e5f601234568".

Definition poster : content_doc :=
  ContentDoc oid_a "poster.png" "/static/uploads/poster.png" "image/png" 1000.

Definition sample_url (path : string) : string :=
  "http://signage.local/static/" +:+ path.

Definition sample_invalid_id (s : string) : string :=
  "'" +:+ s +:+ "' is not a valid ObjectId, it must be a 12-byte input"
      +:+ " or a 24-character hex string".

Definition clip : content_doc :=
  ContentDoc oid_b "clip.mp4" "/static/uploads/clip.mp4" "video/mp4" 1000.



(** Two uploads stamped with the same date. *)
Definition db_tied : Db :=
  MkDb (content_insert_one clip (content_insert_one poster [])) ∅ ∅.

(** One screen that points at a content id nobody uploaded. *)
Definition db_dangling : Db :=
  MkDb [] {[ "lobby" := Some oid_a ]} ∅.

(** One uploaded poster shown on one screen. *)
Definition db_showing : Db :=
  MkDb [poster] {[ "lobby" := Some oid_a ]} {[ "poster.png" ]}.

(** One uploaded poster, one registered screen with nothing to show. *)
Definition db_idle : Db :=
  MkDb [poster] {[ "lobby" := None ]} {[ "poster.png" ]}.

(** One uploaded poster and no screen yet. *)
Definition db_fresh : Db :=
  MkDb [poster] ∅ {[ "poster.png" ]}.


(** A file name that [secure_filename] hands back as it is, the
    extensions in the order of [Config], and an upload of the poster. *)
Definition sample_secure_filename (name : string) : string := name.

Definition sample_extension_order : list string :=
  ["png"; "jpg"; "mov"; "jpeg"; "gif"; "mp4"; "webm"; "ogg"].

Definition poster_file : file_storage := FileStorage "poster.png" "image/png".

Definition db_empty : Db := MkDb [] ∅ ∅.

Definition post_poster (now : Z) (inserted_id : ObjectId) (db : Db) : Db :=
  up_db (upload_file sample_secure_filename sample_extension_order
                     now inserted_id
                     (UploadRequest POST 20480 (Some poster_file)) db).

(** The poster uploaded twice. *)
Definition db_posted_twice : Db :=
  post_poster 2000 oid_b (post_poster 1000 oid_a db_empty).

Definition second_poster : content_doc :=
  ContentDoc oid_b "poster.png" "/static/uploads/poster.png" "image/png" 2000.

(** * Properties *)

(** ** Helper lemmas *)

Lemma content_find_one_filter oid coll :
  content_find_one oid coll = head (filter (λ c, _id c = oid) coll).
Proof.
  unfold content_find_one.
  induction coll as [|c coll IH]; [done|]. simpl.
  rewrite filter_cons. case_bool_decide; destruct (decide _); naive_solver.
Qed.

Lemma content_find_one_None oid db :
  content_find_one oid (content_collection db) = None ↔ ¬ content_exists oid db.
Proof.
  unfold content_exists, content_find_one. split.
  - intros Hnone (c & Hin & Hid).
    apply list_elem_of_In in Hin.
    pose proof (find_none _ _ Hnone c Hin) as Hc. simpl in Hc.
    by rewrite bool_decide_eq_false in Hc.
  - intros Hno. destruct (find _ _) as [c|] eqn:Hfind; [|done].
    apply find_some in Hfind as [Hin Hc].
    rewrite bool_decide_eq_true in Hc.
    exfalso. apply Hno. exists c. by rewrite list_elem_of_In.
Qed.

Lemma in_use_message_not_deleted n :
  content_in_use_message n ≠ "Content deleted successfully.".
Proof. unfold content_in_use_message. simpl. discriminate. Qed.

Lemma in_use_message_not_missing n :
  content_in_use_message n ≠ "Content not found.".
Proof. unfold content_in_use_message. simpl. discriminate. Qed.

(** ** Deleting content *)

Lemma length_append s t :
  String.length (s +:+ t) = String.length s + String.length t.
Proof. induction s as [|a s IH]; simpl; [done|]. by rewrite IH. Qed.

Lemma append_inv_tail s1 s2 t : s1 +:+ t = s2 +:+ t → s1 = s2.
Proof.
  revert s2. induction s1 as [|a s1 IH]; intros [|b s2] Heq; simpl in Heq.
  - done.
  - apply (f_equal String.length) in Heq.
    rewrite !length_append in Heq. simpl in Heq. lia.
  - apply (f_equal String.length) in Heq.
    rewrite !length_append in Heq. simpl in Heq. lia.
  - injection Heq as -> Heq. f_equal. by apply IH.
Qed.

Lemma in_use_message_count (m n : nat) :
  "Cannot delete content: It is currently assigned to "
    +:+ pretty m +:+ " screen(s)."
  = "Cannot delete content: It is currently assigned to "
      +:+ pretty n +:+ " screen(s)." →
  m = n.
Proof.
  intros Heq. apply (inj (String.app _)) in Heq.
  apply append_inv_tail in Heq. by apply (inj pretty) in Heq.
Qed.

(** C1: for a well-formed content id, [delete_content] refuses with the
    in-use message exactly when some screen references the id at the time
    of the call.  The message then reads "Cannot delete content: It is
    currently assigned to N screen(s)." with N the decimal number of
    those screens, which can be read back from it, and the database (both
    collections and the uploaded files) is left as it was; whenever the
    call changes the database at all, the reference count it read was
    zero. *)
Theorem delete_content_in_use_iff content_id obj_id db :
  ObjectId_of_str content_id = Some obj_id →
  let n := countAssignedTo obj_id db in
  let r := delete_content content_id db in
  (ContentInUse r ↔ 0 < n)
  ∧ (0 < n →
     flashed r = "Cannot delete content: It is currently assigned to "
                   +:+ pretty n +:+ " screen(s)."
     ∧ (∀ count : nat,
          flashed r = "Cannot delete content: It is currently assigned to "
                        +:+ pretty count +:+ " screen(s)." →
          count = n)
     ∧ db_after r = db)
  ∧ (db_after r ≠ db → n = 0).
Proof.
  intros Hparse n r. subst n r.
  unfold delete_content, countAssignedTo. rewrite Hparse. simpl.
  destruct (decide (0 < _)) as [Hpos|Hzero]; simpl.
  - split; [|split]; [|intros _|done].
    + split; [done|]. intros _. by eexists.
    + split; [done|]. split; [|done].
      intros count Hcount. symmetry. by apply in_use_message_count.
  - split; [|split]; [|lia|lia].
    split; [|done]. intros [k Hk].
    destruct (content_find_one _ _); simpl in Hk; discriminate Hk.
Qed.

Lemma delete_content_in_use_iff_witness :
  let r := delete_content "65F0A1B2C3D4E5F601234567" db_showing in
  countAssignedTo oid_a db_showing = 1
  ∧ flashed r
    = "Cannot delete content: It is currently assigned to 1 screen(s)."
  ∧ ContentInUse r
  ∧ db_after r = db_showing.
Proof.
  destruct (delete_content_in_use_iff "65F0A1B2C3D4E5F601234567" oid_a
              db_showing eq_refl) as (Hiff & Hmessage & _).
  assert (0 < countAssignedTo oid_a db_showing) as Hpos by (vm_compute; lia).
  destruct (Hmessage Hpos) as (Htext & _ & Hdb).
  split; [reflexivity|]. split; [exact Htext|].
  split; [by apply Hiff|exact Hdb].
Defined.

(** The other branch on a sample: content no screen references is
    deleted, record and file. *)
Example delete_unreferenced_content :
  delete_content "65f0a1b2c3d4e5f601234567" db_idle
  = Redirected "Content deleted successfully." ep_index
      (MkDb [] {[ "lobby" := None ]} ∅).
Proof. by vm_compute. Qed.

(** C10, as stated, fails: a well-formed id without a content document
    that a screen still points at is answered with the in-use message,
    not with the not-found message. *)
Lemma delete_missing_content_counterexample :
  ObjectId_of_str "65f0a1b2c3d4e5f601234567" = Some oid_a
  ∧ ¬ content_exists oid_a db_dangling
  ∧ flashed (delete_content "65f0a1b2c3d4e5f601234567" db_dangling)
      = "Cannot delete content: It is currently assigned to 1 screen(s)."
  ∧ flashed (delete_content "65f0a1b2c3d4e5f601234567" db_dangling)
      ≠ "Content not found.".
Proof.
  split; [reflexivity|]. split.
  - intros (c & Hin & _). simpl in Hin. by apply elem_of_nil in Hin.
  - split; [by vm_compute|]. by vm_compute.
Qed.

(** C10 (amended): for a well-formed id that identifies no content
    document, [delete_content] leaves the whole database as it was; it
    answers with the not-found message when no screen references the id,
    and with the in-use message and the count when some screen does. *)
Theorem delete_missing_content content_id obj_id db :
  ObjectId_of_str content_id = Some obj_id →
  ¬ content_exists obj_id db →
  let n := countAssignedTo obj_id db in
  let r := delete_content content_id db in
  db_after r = db
  ∧ location r = ep_index
  ∧ (n = 0 → flashed r = "Content not found.")
  ∧ (0 < n → flashed r = content_in_use_message n).
Proof.
  intros Hparse Hmissing n r. subst n r.
  apply content_find_one_None in Hmissing.
  unfold delete_content, countAssignedTo. rewrite Hparse, Hmissing. simpl.
  destruct (decide (0 < _)); simpl; repeat split; try done; lia.
Qed.

Lemma delete_missing_content_witness :
  let r := delete_content "65f0a1b2c3d4e5f601234568" db_showing in
  db_after r = db_showing
  ∧ location r = ep_index
  ∧ (countAssignedTo oid_b db_showing = 0 → flashed r = "Content not found.")
  ∧ (0 < countAssignedTo oid_b db_showing →
     flashed r = content_in_use_message (countAssignedTo oid_b db_showing)).
Proof.
  apply (delete_missing_content "65f0a1b2c3d4e5f601234568" oid_b db_showing).
  - reflexivity.
  - intros (c & Hin & Hid). simpl in Hin.
    apply list_elem_of_singleton in Hin. subst c. discriminate Hid.
Defined.

(** ** Deleting a screen *)

(** C9: [delete_screen] leaves the content collection and the uploaded
    files exactly as they were, whatever the database holds and whichever
    screen is deleted; every content document that could be found before
    is found afterwards. *)
Theorem delete_screen_keeps_content screen_id db :
  let db' := db_after (delete_screen screen_id db) in
  content_collection db' = content_collection db
  ∧ upload_folder db' = upload_folder db
  ∧ (∀ oid, content_find_one oid (content_collection db')
            = content_find_one oid (content_collection db))
  ∧ screens_collection db' !! screen_id = None.
Proof.
  simpl. repeat split. apply lookup_delete_eq.
Qed.

(** ** The rows of one screen in a listing *)

Lemma filter_keeps_all {A} (P : A → Prop) `{∀ x, Decision (P x)} (l : list A) :
  Forall P l → filter P l = l.
Proof.
  induction 1 as [|x l Hx _ IH]; [done|].
  rewrite filter_cons. destruct (decide (P x)); [by f_equal|done].
Qed.

Lemma filter_drops_all {A} (P : A → Prop) `{∀ x, Decision (P x)} (l : list A) :
  Forall (λ x, ¬ P x) l → filter P l = [].
Proof.
  induction 1 as [|x l Hx _ IH]; [done|].
  rewrite filter_cons. destruct (decide (P x)); done.
Qed.

Lemma index_project_id d : index_project d !! "id" = Some (VStr (uw_id d)).
Proof.
  unfold index_project, set_field.
  destruct (uw_assigned_content d); simpl; by simplify_map_eq.
Qed.

Lemma manage_screens_project_id d :
  manage_screens_project d !! "id" = Some (VStr (uw_id d)).
Proof.
  unfold manage_screens_project, set_field.
  destruct (uw_assigned_content d); simpl; by simplify_map_eq.
Qed.

Lemma unwind_lookup_cons content k ref l :
  unwind_stage (lookup_stage content ((k, ref) :: l))
  = unwind_stage (lookup_stage content [(k, ref)])
    ++ unwind_stage (lookup_stage content l).
Proof.
  unfold unwind_stage, lookup_stage. rewrite !fmap_cons, !bind_cons.
  simpl. by rewrite app_nil_r.
Qed.

Lemma unwind_lookup_single_id content k ref d :
  d ∈ unwind_stage (lookup_stage content [(k, ref)]) → uw_id d = k.
Proof.
  unfold unwind_stage, lookup_stage. simpl. rewrite app_nil_r.
  destruct (match ref with Some _ => _ | None => _ end) as [|c cs].
  - intros ->%list_elem_of_singleton. done.
  - intros [->|(c' & -> & _)%list_elem_of_fmap]%elem_of_cons; done.
Qed.

Section Rows.

Context (proj : unwound → gmap string value).
Context (proj_id : ∀ d, proj d !! "id" = Some (VStr (uw_id d))).

Lemma screen_rows_same content k ref :
  screen_rows k (proj <$> unwind_stage (lookup_stage content [(k, ref)]))
  = proj <$> unwind_stage (lookup_stage content [(k, ref)]).
Proof.
  apply filter_keeps_all, Forall_forall.
  intros row (d & -> & Hd)%list_elem_of_fmap.
  rewrite proj_id. by rewrite (unwind_lookup_single_id _ _ _ _ Hd).
Qed.

Lemma screen_rows_other content sid l :
  sid ∉ l.*1 →
  screen_rows sid (proj <$> unwind_stage (lookup_stage content l)) = [].
Proof.
  intros Hnot. apply filter_drops_all, Forall_forall.
  intros row (d & -> & Hd)%list_elem_of_fmap.
  rewrite proj_id. intros [= Heq]. apply Hnot.
  induction l as [|[k ref] l IH]; [by apply elem_of_nil in Hd|].
  rewrite unwind_lookup_cons in Hd. apply elem_of_app in Hd as [Hd|Hd].
  - apply unwind_lookup_single_id in Hd. rewrite fmap_cons. simpl.
    rewrite <- Heq, Hd. by left.
  - rewrite fmap_cons. right. apply IH; [|done].
    intros Hin. apply Hnot. rewrite fmap_cons. by right.
Qed.

Lemma screen_rows_in_list content sid ref l :
  NoDup l.*1 → (sid, ref) ∈ l →
  screen_rows sid (proj <$> unwind_stage (lookup_stage content l))
  = proj <$> unwind_stage (lookup_stage content [(sid, ref)]).
Proof.
  induction l as [|[k w] l IH]; intros Hnodup Hin.
  { by apply elem_of_nil in Hin. }
  rewrite fmap_cons in Hnodup. simpl in Hnodup.
  apply NoDup_cons in Hnodup as [Hk Hnodup].
  rewrite unwind_lookup_cons, fmap_app.
  unfold screen_rows at 1. rewrite filter_app. fold (screen_rows sid).
  apply elem_of_cons in Hin as [[= <- <-]|Hin].
  - change (filter _ ?rows) with (screen_rows sid rows).
    rewrite screen_rows_same, (screen_rows_other _ _ _ Hk).
    by rewrite app_nil_r.
  - assert (k ≠ sid) as Hne.
    { intros ->. apply Hk. apply list_elem_of_fmap. by exists (sid, ref). }
    change (filter _ ?rows) with (screen_rows sid rows).
    rewrite (IH Hnodup Hin).
    assert (screen_rows sid
              (proj <$> unwind_stage (lookup_stage content [(k, w)])) = [])
      as ->; [|done].
    apply screen_rows_other. simpl. by intros ->%list_elem_of_singleton.
Qed.

(** The rows of a registered screen depend on its own document only. *)
Lemma screen_rows_of_db db sid ref :
  screens_collection db !! sid = Some ref →
  screen_rows sid
    (proj <$> unwind_stage
       (lookup_stage (content_collection db)
                     (map_to_list (screens_collection db))))
  = proj <$> unwind_stage (lookup_stage (content_collection db) [(sid, ref)]).
Proof.
  intros Hsid. apply screen_rows_in_list.
  - apply NoDup_fst_map_to_list.
  - by apply elem_of_map_to_list.
Qed.

End Rows.


Lemma ObjectId_of_str_nonempty s oid : ObjectId_of_str s = Some oid → s ≠ "".
Proof. by intros Hparse ->. Qed.

Lemma index_row_without_content sid ref :
  index_project (Unwound sid ref None)
  = {[ "id" := VStr sid; "assigned_content_id" := value_of_ref ref ]}.
Proof.
  unfold index_project, set_field. simpl.
  apply map_eq. intros k.
  destruct (decide (k = "id")) as [->|]; [by simplify_map_eq|].
  destruct (decide (k = "assigned_content_id")) as [->|]; by simplify_map_eq.
Qed.

Lemma manage_row_without_content sid ref :
  manage_screens_project (Unwound sid ref None)
  = {[ "_id" := VStr sid; "id" := VStr sid;
       "assigned_content_id" := value_of_ref ref ]}.
Proof.
  unfold manage_screens_project, set_field. simpl.
  apply map_eq. intros k.
  destruct (decide (k = "_id")) as [->|]; [by simplify_map_eq|].
  destruct (decide (k = "id")) as [->|]; [by simplify_map_eq|].
  destruct (decide (k = "assigned_content_id")) as [->|]; by simplify_map_eq.
Qed.

Section HandlerProperties.

Context (url_for_static : string → string).
Context (InvalidId_text : string → string).

(** ** The polling API *)

(** C2: for a screen id without a record, the first poll stores a record
    whose [assigned_content_id] is [None] and answers that the screen was
    registered with no content assigned; the poll that follows answers
    that no content is assigned and leaves the database as the first poll
    left it. *)
Theorem first_poll_registers screen_id db :
  screens_collection db !! screen_id = None →
  let '(first, db1) := get_screen_content url_for_static screen_id db in
  let '(second, db2) := get_screen_content url_for_static screen_id db1 in
  screens_collection db1 = <[screen_id := None]> (screens_collection db)
  ∧ screens_collection db1 !! screen_id = Some None
  ∧ content_collection db1 = content_collection db
  ∧ first = ResponseData screen_id None
              (Some "Screen registered. No content assigned yet.")
  ∧ second = ResponseData screen_id None (Some "No content assigned yet.")
  ∧ db2 = db1.
Proof.
  intros Hnew. unfold get_screen_content.
  rewrite Hnew. simpl. rewrite lookup_insert_eq.
  repeat split.
Qed.

(** C4: when a screen's [assigned_content_id] is set and no content
    document has that id, the poll answers [content = None] together with
    the warning message, and the database, the screen's stale pointer
    included, is left exactly as it was. *)
Theorem dangling_reference_reported screen_id oid db :
  screens_collection db !! screen_id = Some (Some oid) →
  ¬ content_exists oid db →
  let '(response, db') := get_screen_content url_for_static screen_id db in
  rd_content response = None
  ∧ rd_message response
    = Some "Assigned content not found. Content may have been deleted."
  ∧ rd_screen_id response = screen_id
  ∧ db' = db
  ∧ screens_collection db' !! screen_id = Some (Some oid).
Proof.
  intros Hscreen Hmissing. apply content_find_one_None in Hmissing.
  unfold get_screen_content. rewrite Hscreen, Hmissing.
  repeat split. done.
Qed.

(** ** Assigning content *)





(** C6: whatever the database holds for a screen id (no record, a record
    without content, a record pointing at any content id), assigning the
    empty content id and then resolving the screen gives
    [assigned_content_id = None] and no content: the poll answers
    [content = None] with the no-content message, and the screen's single
    row in either listing has a null [assigned_content_id] and no
    [filename]. *)
Theorem unassign_then_resolve screen_id db :
  let r := assign_content InvalidId_text screen_id "" db in
  let db' := db_after r in
  flashed r = "Content unassigned from screen " +:+ screen_id
                +:+ " successfully!"
  ∧ screens_collection db' !! screen_id = Some None
  ∧ get_screen_content url_for_static screen_id db'
    = (ResponseData screen_id None (Some "No content assigned yet."), db')
  ∧ screen_rows screen_id (ip_screens (index db'))
    = [ {[ "id" := VStr screen_id; "assigned_content_id" := VNull ]} ]
  ∧ screen_rows screen_id (sp_screens (manage_screens db'))
    = [ {[ "_id" := VStr screen_id; "id" := VStr screen_id;
           "assigned_content_id" := VNull ]} ].
Proof.
  intros r db'. subst r db'.
  unfold assign_content, assign_content_among, assign_content_write,
    assign_content_verify.
  simpl. rewrite lookup_insert_eq. simpl.
  set (db' := MkDb (content_collection db)
                   (<[screen_id := None]> (screens_collection db))
                   (upload_folder db)).
  split; [done|]. split; [apply lookup_insert_eq|].
  split.
  { unfold get_screen_content. simpl. by rewrite lookup_insert_eq. }
  split.
  - unfold index.
    rewrite (screen_rows_of_db _ index_project_id db' _ None)
      by apply lookup_insert_eq.
    unfold lookup_stage, unwind_stage. simpl.
    by rewrite index_row_without_content.
  - unfold manage_screens.
    rewrite (screen_rows_of_db _ manage_screens_project_id db' _ None)
      by apply lookup_insert_eq.
    unfold lookup_stage, unwind_stage. simpl.
    by rewrite manage_row_without_content.
Qed.


(** ** The two listings and the poll *)

Lemma manage_row_without_id d :
  delete "_id" (manage_screens_project d) = index_project d.
Proof.
  apply map_eq. intros k.
  unfold manage_screens_project, index_project, set_field.
  destruct (decide (k = "_id")) as [->|];
    [by destruct (uw_assigned_content d); simplify_map_eq|].
  rewrite lookup_delete_ne by done.
  destruct (decide (k = "filename")) as [->|];
    [by destruct (uw_assigned_content d); simplify_map_eq|].
  destruct (decide (k = "assigned_content_id")) as [->|];
    [by destruct (uw_assigned_content d); simplify_map_eq|].
  destruct (decide (k = "id")) as [->|];
    by destruct (uw_assigned_content d); simplify_map_eq.
Qed.

Lemma manage_row_both_ids d :
  manage_screens_project d !! "_id" = Some (VStr (uw_id d))
  ∧ manage_screens_project d !! "id" = Some (VStr (uw_id d)).
Proof.
  unfold manage_screens_project, set_field.
  destruct (uw_assigned_content d); simpl; by simplify_map_eq.
Qed.

Lemma index_row_filename d :
  index_project d !! "filename"
  = (λ c, VStr (filename c)) <$> uw_assigned_content d.
Proof.
  unfold index_project, set_field.
  destruct (uw_assigned_content d); simpl; by simplify_map_eq.
Qed.

(** C3, as stated, fails: the rows of the management listing carry the
    screen's [_id] next to [id], the rows of the home listing do not. *)
Lemma listings_differ_counterexample :
  ip_screens (index db_idle) ≠ sp_screens (manage_screens db_idle)
  ∧ (∀ row, row ∈ ip_screens (index db_idle) →
            row !! "_id" = None)
  ∧ (∀ row, row ∈ sp_screens (manage_screens db_idle) →
            row !! "_id" = Some (VStr "lobby")).
Proof.
  assert (ip_screens (index db_idle)
          = [index_project (Unwound "lobby" None None)]) as Hindex
    by by vm_compute.
  assert (sp_screens (manage_screens db_idle)
          = [manage_screens_project (Unwound "lobby" None None)]) as Hmanage
    by by vm_compute.
  rewrite Hindex, Hmanage. split; [|split].
  - intros Heq.
    apply (f_equal (λ rows, head rows ≫= (λ row, row !! "_id"))) in Heq.
    by vm_compute in Heq.
  - by intros row ->%list_elem_of_singleton.
  - by intros row ->%list_elem_of_singleton.
Qed.

(** C3 (amended): for any database the home listing and the management
    listing run the same [$lookup] and [$unwind] and agree, row by row,
    on [id], [assigned_content_id] and [filename]: the home rows are the
    management rows without the [_id] field, which in a management row
    repeats [id].  The poll treats a missing content document alike: the
    first row of a registered screen has a [filename] exactly when the
    poll has content, and then it is the same file name. *)
Theorem listings_agree db :
  ip_screens (index db)
  = delete "_id" <$> sp_screens (manage_screens db)
  ∧ (∀ row, row ∈ sp_screens (manage_screens db) →
            is_Some (row !! "id") ∧ row !! "_id" = row !! "id")
  ∧ (∀ screen_id ref,
       screens_collection db !! screen_id = Some ref →
       ∃ row rest,
         screen_rows screen_id (ip_screens (index db))
         = row :: rest
         ∧ row !! "assigned_content_id" = Some (value_of_ref ref)
         ∧ row !! "filename"
           = (λ cj, VStr (cj_filename cj))
               <$> rd_content (get_screen_content url_for_static screen_id db).1).
Proof.
  split; [|split].
  - unfold index, manage_screens. simpl.
    rewrite <- list_fmap_compose. apply list_fmap_ext.
    intros _ d _. simpl. by rewrite manage_row_without_id.
  - unfold manage_screens. simpl.
    intros row (d & -> & _)%list_elem_of_fmap.
    destruct (manage_row_both_ids d) as [-> ->]. by split.
  - intros screen_id ref Hscreen. unfold index. simpl.
    rewrite (screen_rows_of_db _ index_project_id db _ ref Hscreen).
    unfold get_screen_content. rewrite Hscreen.
    unfold lookup_stage, unwind_stage. simpl. rewrite app_nil_r.
    destruct ref as [oid|]; simpl.
    + rewrite content_find_one_filter.
      destruct (filter _ _) as [|c cs]; simpl.
      * eexists _, _. split; [done|].
        rewrite index_row_filename. simpl.
        by rewrite index_row_without_content; simplify_map_eq.
      * eexists _, _. split; [done|].
        rewrite index_row_filename. simpl. split; [|done].
        unfold index_project, set_field. simpl. by simplify_map_eq.
    + eexists _, _. split; [done|].
      rewrite index_row_filename. simpl.
      by rewrite index_row_without_content; simplify_map_eq.
Qed.

(** ** The content listing *)

Global Instance newer_first_trans : Transitive newer_first.
Proof. unfold newer_first. intros a b c. lia. Qed.

Global Instance newer_first_total : Total newer_first.
Proof. unfold newer_first. intros a b. lia. Qed.



Section CursorSort.

Context (key : content_doc → Z) (direction : Z).

Lemma sorts_before_total a b :
  sorts_before key direction a b ∨ sorts_before key direction b a.
Proof. unfold sorts_before. destruct (decide _); lia. Qed.


Lemma sort_insert_perm doc docs :
  sort_insert key direction doc docs ≡ₚ doc :: docs.
Proof.
  induction docs as [|next rest IH]; simpl; [done|].
  destruct (decide _); [done|]. rewrite IH. apply Permutation_swap.
Qed.

Lemma cursor_sort_perm docs : cursor_sort key direction docs ≡ₚ docs.
Proof.
  induction docs as [|doc rest IH]; simpl; [done|].
  by rewrite sort_insert_perm, IH.
Qed.

Lemma sort_insert_sorted doc docs :
  Sorted (sorts_before key direction) docs →
  Sorted (sorts_before key direction) (sort_insert key direction doc docs).
Proof.
  induction docs as [|next rest IH]; simpl; intros Hsorted.
  { by repeat constructor. }
  destruct (decide (sorts_before key direction doc next)) as [Hbefore|Hafter].
  { constructor; [done|]. by constructor. }
  apply Sorted_inv in Hsorted as [Hrest Hhead].
  constructor; [by apply IH|].
  destruct (sorts_before_total doc next) as [|Hnext]; [done|].
  destruct rest as [|third rest']; simpl.
  { by constructor. }
  destruct (decide _); constructor; [done|].
  by apply HdRel_inv in Hhead.
Qed.

Lemma cursor_sort_sorted docs :
  Sorted (sorts_before key direction) (cursor_sort key direction docs).
Proof.
  induction docs as [|doc rest IH]; simpl; [constructor|].
  by apply sort_insert_sorted.
Qed.



End CursorSort.


Lemma newest_first_sorted coll :
  Sorted newer_first (cursor_sort upload_date (-1) coll).
Proof.
  pose proof (cursor_sort_sorted upload_date (-1) coll) as Hsorted.
  induction Hsorted as [|c l _ IH Hhead]; constructor; [done|].
  destruct Hhead as [|d l Hcd]; constructor.
  unfold sorts_before in Hcd. by destruct (decide _).
Qed.

(** Two uploads stamped with the same date are listed in the order of
    their insertion. *)
Example tied_uploads_keep_order :
  (ip_content (index db_tied)).*1 = [poster; clip].
Proof. by vm_compute. Qed.


End HandlerProperties.

(** ** The theorems at sample databases *)

Lemma first_poll_registers_witness :
  let '(first, db1) := get_screen_content sample_url "lobby" db_fresh in
  let '(second, db2) := get_screen_content sample_url "lobby" db1 in
  screens_collection db1 = <["lobby" := None]> (screens_collection db_fresh)
  ∧ screens_collection db1 !! "lobby" = Some None
  ∧ content_collection db1 = content_collection db_fresh
  ∧ first = ResponseData "lobby" None
              (Some "Screen registered. No content assigned yet.")
  ∧ second = ResponseData "lobby" None (Some "No content assigned yet.")
  ∧ db2 = db1.
Proof.
  apply (first_poll_registers sample_url "lobby" db_fresh).
  reflexivity.
Defined.

Lemma dangling_reference_reported_witness :
  let '(response, db') := get_screen_content sample_url "lobby" db_dangling in
  rd_content response = None
  ∧ rd_message response
    = Some "Assigned content not found. Content may have been deleted."
  ∧ rd_screen_id response = "lobby"
  ∧ db' = db_dangling
  ∧ screens_collection db' !! "lobby" = Some (Some oid_a).
Proof.
  apply (dangling_reference_reported sample_url "lobby" oid_a db_dangling).
  - reflexivity.
  - intros (c & Hin & _). simpl in Hin. by apply elem_of_nil in Hin.
Defined.



(** * Further properties of the handlers *)

(** ** [allowed_file] *)

Lemma is_dot_true a : is_dot a = true ↔ a = "."%char.
Proof. apply Ascii.eqb_eq. Qed.

Lemma dot_in_app s t : dot_in (s +:+ t) = dot_in s || dot_in t.
Proof.
  induction s as [|a s IH]; simpl; [done|].
  destruct (is_dot a); [done|]. apply IH.
Qed.

Lemma rsplit_dot_no_dot s : dot_in s = false → rsplit_dot s = [s].
Proof.
  induction s as [|a s IH]; simpl; [done|].
  destruct (is_dot a); [done|]. intros Hs. by rewrite (IH Hs).
Qed.

Lemma rsplit_dot_last stem ext :
  dot_in ext = false → rsplit_dot (stem +:+ "." +:+ ext) = [stem; ext].
Proof.
  intros Hext. induction stem as [|a stem IH].
  - change (rsplit_dot ("" +:+ "." +:+ ext))
      with (match rsplit_dot ext with
            | [stem; ext'] => [String "." stem; ext']
            | _ => ["" ; ext]
            end).
    by rewrite (rsplit_dot_no_dot _ Hext).
  - change (rsplit_dot (String a stem +:+ "." +:+ ext))
      with (match rsplit_dot (stem +:+ "." +:+ ext) with
            | [stem'; ext'] => [String a stem'; ext']
            | _ => if is_dot a then [""; stem +:+ "." +:+ ext]
                   else [String a (stem +:+ "." +:+ ext)]
            end).
    by rewrite IH.
Qed.

Lemma rsplit_dot_some_dot s :
  dot_in s = true →
  ∃ stem ext, s = stem +:+ "." +:+ ext ∧ dot_in ext = false.
Proof.
  induction s as [|a s IH]; simpl; [done|].
  destruct (dot_in s) eqn:Hs.
  - intros _. destruct (IH eq_refl) as (stem & ext & -> & Hext).
    by exists (String a stem), ext.
  - destruct (is_dot a) eqn:Ha; [|done]. intros _.
    apply is_dot_true in Ha as ->. by exists "", s.
Qed.

(** X1: [allowed_file] accepts a name exactly when it has a dot and the
    text after its last dot, in lower case, is one of the allowed
    extensions; what stands before the last dot is never looked at. *)
Theorem allowed_file_iff filename :
  allowed_file filename = true
  ↔ ∃ stem ext,
      filename = stem +:+ "." +:+ ext
      ∧ dot_in ext = false
      ∧ str_lower ext ∈ ALLOWED_EXTENSIONS.
Proof.
  unfold allowed_file. split.
  - intros [Hdot Hext]%andb_true_iff.
    destruct (rsplit_dot_some_dot _ Hdot) as (stem & ext & -> & Hnodot).
    rewrite (rsplit_dot_last _ _ Hnodot) in Hext. simpl in Hext.
    apply bool_decide_eq_true in Hext. by exists stem, ext.
  - intros (stem & ext & -> & Hnodot & Hin).
    rewrite (rsplit_dot_last _ _ Hnodot), dot_in_app. simpl.
    rewrite orb_true_r. simpl. by apply bool_decide_eq_true.
Qed.

Lemma ascii_lower_idemp a : ascii_lower (ascii_lower a) = ascii_lower a.
Proof. by destruct a as [[] [] [] [] [] [] [] []]; vm_compute. Qed.

Lemma is_dot_lower a : is_dot (ascii_lower a) = is_dot a.
Proof. by destruct a as [[] [] [] [] [] [] [] []]; vm_compute. Qed.

Lemma str_lower_idemp s : str_lower (str_lower s) = str_lower s.
Proof.
  induction s as [|a s IH]; simpl; [done|].
  by rewrite ascii_lower_idemp, IH.
Qed.

Lemma str_lower_app s t : str_lower (s +:+ t) = str_lower s +:+ str_lower t.
Proof. induction s as [|a s IH]; simpl; [done|]. by rewrite IH. Qed.

Lemma dot_in_lower s : dot_in (str_lower s) = dot_in s.
Proof.
  induction s as [|a s IH]; simpl; [done|]. by rewrite is_dot_lower, IH.
Qed.

(** X2: the letter case of a file name does not change the verdict of
    [allowed_file]. *)
Theorem allowed_file_ignores_case filename :
  allowed_file (str_lower filename) = allowed_file filename.
Proof.
  destruct (dot_in filename) eqn:Hdot.
  - destruct (rsplit_dot_some_dot _ Hdot) as (stem & ext & -> & Hnodot).
    unfold allowed_file.
    rewrite !str_lower_app. simpl str_lower.
    change (String (ascii_lower ".") "") with ".".
    rewrite (rsplit_dot_last (str_lower stem) (str_lower ext))
      by by rewrite dot_in_lower.
    rewrite (rsplit_dot_last stem ext) by done.
    rewrite !dot_in_app. simpl. by rewrite str_lower_idemp, !orb_true_r.
  - unfold allowed_file. by rewrite dot_in_lower, Hdot.
Qed.

(** ** Reference counts *)

Lemma count_documents_pos_iff oid (screens : gmap string (option ObjectId)) :
  (0 < count_documents oid screens)%nat
  ↔ ∃ screen_id, screens !! screen_id = Some (Some oid).
Proof.
  unfold count_documents. split.
  - destruct (filter _ _) as [|[sid v] l] eqn:Hfilter; simpl; [lia|].
    intros _. exists sid.
    assert ((sid, v) ∈ filter (λ kv : string * option ObjectId,
                                 kv.2 = Some oid) (map_to_list screens))
      as Hin by (rewrite Hfilter; left).
    apply list_elem_of_filter in Hin as [Hv Hin]. simpl in Hv. subst v.
    by apply elem_of_map_to_list.
  - intros [sid Hsid]. apply elem_of_map_to_list in Hsid.
    assert ((sid, Some oid) ∈ filter (λ kv : string * option ObjectId,
                                        kv.2 = Some oid) (map_to_list screens))
      as Hin by by apply list_elem_of_filter.
    destruct (filter _ _); [by apply elem_of_nil in Hin|simpl; lia].
Qed.

(** X3: the reference count that guards deletion is positive exactly
    when some screen has the content assigned, and it never exceeds the
    number of screens. *)
Theorem count_documents_positive oid (screens : gmap string (option ObjectId)) :
  (0 < count_documents oid screens
   ↔ ∃ screen_id, screens !! screen_id = Some (Some oid))%nat
  ∧ (count_documents oid screens ≤ size screens)%nat.
Proof.
  split; [apply count_documents_pos_iff|].
  unfold count_documents. rewrite <- length_map_to_list. apply length_filter.
Qed.

(** ** What a successful deletion does *)

Lemma content_delete_one_subset oid coll c :
  c ∈ content_delete_one oid coll → c ∈ coll.
Proof.
  induction coll as [|d coll IH]; simpl; [done|].
  destruct (decide (_id d = oid)).
  - by right.
  - intros [->|Hin]%elem_of_cons; [by left|]. right. by apply IH.
Qed.

Lemma content_delete_one_keeps oid coll c :
  c ∈ coll → _id c ≠ oid → c ∈ content_delete_one oid coll.
Proof.
  induction coll as [|d coll IH]; simpl; [done|].
  intros [->|Hin]%elem_of_cons Hne.
  - destruct (decide (_id d = oid)); [done|]. by left.
  - destruct (decide (_id d = oid)); [done|]. right. by apply IH.
Qed.

Lemma content_delete_one_find_other oid oid' coll :
  oid' ≠ oid →
  content_find_one oid' (content_delete_one oid coll)
  = content_find_one oid' coll.
Proof.
  intros Hne. unfold content_find_one.
  induction coll as [|d coll IH]; simpl; [done|].
  destruct (decide (_id d = oid)) as [Hd|Hd]; simpl.
  - rewrite bool_decide_eq_false_2; [done|]. congruence.
  - by rewrite IH.
Qed.

Lemma content_delete_one_gone oid coll c :
  NoDup (_id <$> coll) → c ∈ content_delete_one oid coll → _id c ≠ oid.
Proof.
  induction coll as [|d coll IH]; [by intros _ ?%elem_of_nil|].
  rewrite fmap_cons. intros [Hd Hnodup]%NoDup_cons. simpl.
  destruct (decide (_id d = oid)) as [Heq|Hne].
  - intros Hin Hc. apply Hd. rewrite Heq, <- Hc. by apply list_elem_of_fmap_2.
  - intros [->|Hin]%elem_of_cons; [done|]. by apply IH.
Qed.

Lemma content_delete_one_length oid coll c :
  content_find_one oid coll = Some c →
  S (length (content_delete_one oid coll)) = length coll.
Proof.
  unfold content_find_one.
  induction coll as [|d coll IH]; simpl; [done|].
  case_bool_decide; destruct (decide (_id d = oid)); try done.
  intros Hfind. simpl. by rewrite (IH Hfind).
Qed.

Lemma content_find_one_Some oid coll c :
  content_find_one oid coll = Some c → c ∈ coll ∧ _id c = oid.
Proof.
  unfold content_find_one. intros [Hin Hc]%find_some.
  rewrite bool_decide_eq_true in Hc. by rewrite list_elem_of_In.
Qed.

Lemma delete_content_success content_id obj_id c db :
  ObjectId_of_str content_id = Some obj_id →
  countAssignedTo obj_id db = 0 →
  content_find_one obj_id (content_collection db) = Some c →
  delete_content content_id db
  = Redirected "Content deleted successfully." ep_index
      (MkDb (content_delete_one obj_id (content_collection db))
            (screens_collection db)
            (remove_if_exists (filename c) (upload_folder db))).
Proof.
  intros Hparse Hcount Hfind. unfold delete_content, countAssignedTo in *.
  by rewrite Hparse, Hcount, Hfind.
Qed.

Lemma remove_if_exists_spec name files other :
  other ∈ remove_if_exists name files ↔ other ∈ files ∧ other ≠ name.
Proof.
  unfold remove_if_exists. destruct (decide (name ∈ files)) as [Hin|Hout].
  - by rewrite elem_of_difference, elem_of_singleton.
  - split; [|by intros [? _]]. intros Hother. split; [done|]. by intros ->.
Qed.

(** X4: when a well-formed id names a content document that no screen
    has assigned, [delete_content] reports success, removes that
    document and its file, and nothing else: the screens are untouched,
    every other content document is found as before and every other file
    stays.  With unique content ids no document of that id remains. *)
Theorem delete_content_removes content_id obj_id c db :
  ObjectId_of_str content_id = Some obj_id →
  countAssignedTo obj_id db = 0 →
  content_find_one obj_id (content_collection db) = Some c →
  let r := delete_content content_id db in
  flashed r = "Content deleted successfully."
  ∧ screens_collection (db_after r) = screens_collection db
  ∧ S (length (content_collection (db_after r)))
    = length (content_collection db)
  ∧ (∀ oid, oid ≠ obj_id →
       content_find_one oid (content_collection (db_after r))
       = content_find_one oid (content_collection db))
  ∧ (unique_content_ids db → ¬ content_exists obj_id (db_after r))
  ∧ (filename c ∉ upload_folder (db_after r))
  ∧ (∀ name, name ≠ filename c →
       ((name ∈ upload_folder (db_after r)) ↔ (name ∈ upload_folder db))).
Proof.
  intros Hparse Hcount Hfind r. subst r.
  rewrite (delete_content_success _ _ _ _ Hparse Hcount Hfind). simpl.
  split; [done|]. split; [done|].
  split; [by apply (content_delete_one_length _ _ c)|].
  split; [by intros oid Hne; apply content_delete_one_find_other|].
  split.
  { intros Huniq (d & Hin & Hd). simpl in Hin.
    by apply (content_delete_one_gone obj_id _ d Huniq). }
  split.
  - rewrite remove_if_exists_spec. by intros [_ Hne].
  - intros name Hne. rewrite remove_if_exists_spec. tauto.
Qed.

Lemma content_exists_after_delete oid oid' db coll screens files :
  content_exists oid' db → oid' ≠ oid →
  coll = content_delete_one oid (content_collection db) →
  content_exists oid' (MkDb coll screens files).
Proof.
  intros (c & Hin & Hc) Hne ->. exists c. simpl. split; [|done].
  apply content_delete_one_keeps; [done|]. by rewrite Hc.
Qed.

(** X5: [delete_content] never leaves a screen pointing at a missing
    document: if every assignment resolved before the call, whatever the
    id sent, every assignment resolves after it. *)
Theorem delete_content_keeps_integrity content_id db :
  no_dangling db → no_dangling (db_after (delete_content content_id db)).
Proof.
  intros Hok. unfold delete_content.
  destruct (ObjectId_of_str content_id) as [obj_id|]; [|done].
  simpl. destruct (decide (0 < _)) as [|Hzero]; [done|].
  destruct (content_find_one _ _) as [c|]; [|done]. simpl.
  intros sid oid Hsid. simpl in Hsid.
  eapply content_exists_after_delete; [by eapply Hok| |done].
  intros ->. apply Hzero.
  apply count_documents_pos_iff. by exists sid.
Qed.

(** ** Content ids as text *)

Lemma is_hex_digit_lower a : is_hex_digit (hex_lower a) = is_hex_digit a.
Proof. by destruct a as [[] [] [] [] [] [] [] []]; vm_compute. Qed.

Lemma hex_lower_idemp a : hex_lower (hex_lower a) = hex_lower a.
Proof. by destruct a as [[] [] [] [] [] [] [] []]; vm_compute. Qed.

Lemma hex_digit_not_space a : is_hex_digit a = true → is_space a = false.
Proof. by destruct a as [[] [] [] [] [] [] [] []]; vm_compute. Qed.

Local Arguments is_space : simpl never.
Local Arguments is_hex_digit : simpl never.
Local Arguments hex_lower : simpl never.

Lemma fromhex_space a s : is_space a = true → fromhex (String a s) = fromhex s.
Proof. intros Ha. simpl. by rewrite Ha. Qed.

Lemma fromhex_byte a b s :
  is_hex_digit a = true → is_hex_digit b = true →
  fromhex (String a (String b s))
  = (λ rest, String (hex_lower a) (String (hex_lower b) rest)) <$> fromhex s.
Proof.
  intros Ha Hb. simpl. by rewrite (hex_digit_not_space _ Ha), Ha, Hb.
Qed.

Lemma fromhex_facts_pair s :
  (∀ h, fromhex s = Some h → fromhex_result s h)
  ∧ (∀ a h, fromhex (String a s) = Some h → fromhex_result (String a s) h).
Proof.
  unfold fromhex_result.
  induction s as [|b s [IHs IHbs]].
  - split.
    + intros h [= <-]. by simpl.
    + intros a h. destruct (is_space a) eqn:Ha.
      * rewrite (fromhex_space _ _ Ha). intros [= <-]. simpl.
        rewrite Ha, orb_true_r. simpl. split_and!; [done|done|lia|done].
      * simpl. rewrite Ha. by destruct (is_hex_digit a).
  - split; [exact (IHbs b)|].
    intros a h.
    change (only_hex_and_space (String a (String b s)))
      with ((is_hex_digit a || is_space a)
            && only_hex_and_space (String b s)).
    change (has_space (String a (String b s)))
      with (is_space a || has_space (String b s)).
    change (String.length (String a (String b s)))
      with (S (String.length (String b s))).
    destruct (is_space a) eqn:Ha.
    + rewrite (fromhex_space _ _ Ha). intros Hh.
      destruct (IHbs b h Hh) as (Honly & Heq & Hlt & Hfix).
      rewrite orb_true_r, Honly. simpl orb. simpl andb.
      split_and!; [done|done| |done].
      intros _. destruct (has_space (String b s)); [|rewrite Heq by done]; lia.
    + destruct (is_hex_digit a) eqn:Hxa;
        [|by simpl; rewrite Ha, Hxa].
      destruct (is_hex_digit b) eqn:Hxb;
        [|by simpl; rewrite Ha, Hxa, Hxb].
      rewrite (fromhex_byte _ _ _ Hxa Hxb).
      destruct (fromhex s) as [rest|] eqn:Hs; [|done].
      intros [= <-].
      destruct (IHs rest eq_refl) as (Honly & Heq & Hlt & Hfix).
      assert (is_hex_digit (hex_lower a) = true) as Hla
        by by rewrite is_hex_digit_lower.
      assert (is_hex_digit (hex_lower b) = true) as Hlb
        by by rewrite is_hex_digit_lower.
      rewrite (fromhex_byte _ _ _ Hla Hlb), !hex_lower_idemp, Hfix.
      simpl. rewrite Hxb, (hex_digit_not_space _ Hxb), Honly. simpl.
      split_and!; [done| |intros Hsp; specialize (Hlt Hsp); lia|done].
      intros Hsp. by rewrite (Heq Hsp).
Qed.

Lemma fromhex_facts s h : fromhex s = Some h → fromhex_result s h.
Proof. apply fromhex_facts_pair. Qed.

Lemma ObjectId_of_str_Some s oid :
  ObjectId_of_str s = Some oid →
  String.length s = 24 ∧ fromhex s = Some (oid_hex oid).
Proof.
  unfold ObjectId_of_str. destruct (decide _) as [Hlen|]; [|done].
  destruct (fromhex s) as [h|]; [|done]. by intros [= <-].
Qed.

Section MoreHandlerProperties.

Context (url_for_static : string → string).
Context (InvalidId_text : string → string).
Context (secure_filename : string → string).
Context (extensions_as_iterated : list string).

(** ** The database [assign_content] leaves behind *)

Lemma assign_content_verify_db screen_id content_id obj db :
  db_after (assign_content_verify screen_id content_id obj db) = db.
Proof.
  unfold assign_content_verify.
  destruct (screens_collection db !! screen_id); [|done].
  by repeat destruct (decide _).
Qed.

Lemma assign_content_db screen_id content_id db :
  db_after (assign_content InvalidId_text screen_id content_id db)
  = match (if decide (content_id = "") then Some None
           else Some <$> ObjectId_of_str content_id) with
    | Some obj =>
        MkDb (content_collection db)
             (<[screen_id := obj]> (screens_collection db))
             (upload_folder db)
    | None => db
    end.
Proof.
  unfold assign_content, assign_content_among, assign_content_write.
  destruct (decide (content_id = "")) as [->|Hne].
  - simpl. by rewrite assign_content_verify_db.
  - destruct (decide (content_id ≠ "")); [|done].
    destruct (ObjectId_of_str content_id); simpl; [|done].
    by rewrite assign_content_verify_db.
Qed.

Lemma content_exists_same_content oid db db' :
  content_collection db' = content_collection db →
  content_exists oid db → content_exists oid db'.
Proof. unfold content_exists. by intros ->. Qed.

(** X6: apart from assigning an id that has no content document, no
    handler breaks the link between screens and content: deleting a
    screen, polling, uploading, unassigning, and assigning an id that is
    malformed or names an existing document all keep every assignment
    resolvable. *)
Theorem handlers_keep_integrity db :
  no_dangling db →
  (∀ screen_id, no_dangling (db_after (delete_screen screen_id db)))
  ∧ (∀ screen_id,
       no_dangling (get_screen_content url_for_static screen_id db).2)
  ∧ (∀ now inserted_id request,
       no_dangling
         (up_db (upload_file secure_filename extensions_as_iterated
                             now inserted_id request db)))
  ∧ (∀ screen_id content_id,
       (∀ oid, ObjectId_of_str content_id = Some oid → content_exists oid db) →
       no_dangling
         (db_after (assign_content InvalidId_text screen_id content_id db))).
Proof.
  intros Hok. split; [|split; [|split]].
  - intros s sid oid Hsid. simpl in Hsid.
    apply lookup_delete_Some in Hsid as [_ Hsid].
    by apply (content_exists_same_content _ db), (Hok sid).
  - intros s. unfold get_screen_content.
    destruct (screens_collection db !! s) as [[oid|]|] eqn:Hs; simpl.
    + by destruct (content_find_one _ _).
    + done.
    + intros sid oid Hsid. simpl in Hsid.
      apply lookup_insert_Some in Hsid as [[_ [=]]|[_ Hsid]].
      by apply (content_exists_same_content _ db), (Hok sid).
  - intros now new_id request. unfold upload_file.
    destruct (req_method request); [done|].
    destruct (decide (MAX_CONTENT_LENGTH < _)%Z); [done|].
    destruct (req_file request) as [file|]; [|done].
    destruct (decide _); [done|].
    destruct (allowed_file _); [|done]. simpl.
    intros sid oid Hsid. simpl in Hsid.
    destruct (Hok sid oid Hsid) as (c & Hin & Hc).
    exists c. split; [|done]. simpl. unfold content_insert_one.
    apply elem_of_app. by left.
  - intros s content_id Hexists. rewrite assign_content_db.
    destruct (decide (content_id = "")) as [->|Hne].
    + intros sid oid Hsid. simpl in Hsid.
      apply lookup_insert_Some in Hsid as [[_ [=]]|[_ Hsid]].
      by apply (content_exists_same_content _ db), (Hok sid).
    + destruct (ObjectId_of_str content_id) as [obj|] eqn:Hparse; simpl;
        [|done].
      intros sid oid Hsid. simpl in Hsid.
      apply lookup_insert_Some in Hsid as [[_ [= <-]]|[_ Hsid]].
      * by apply (content_exists_same_content _ db), Hexists.
      * by apply (content_exists_same_content _ db), (Hok sid).
Qed.

(** X7: content that only one screen shows can be deleted once that
    screen is unassigned or deleted: after either step, [delete_content]
    reports success for it. *)
Theorem release_then_delete screen_id content_id oid c db :
  ObjectId_of_str content_id = Some oid →
  content_find_one oid (content_collection db) = Some c →
  (∀ other, other ≠ screen_id →
     screens_collection db !! other ≠ Some (Some oid)) →
  flashed (delete_content content_id
             (db_after (assign_content InvalidId_text screen_id "" db)))
  = "Content deleted successfully."
  ∧ flashed (delete_content content_id
               (db_after (delete_screen screen_id db)))
    = "Content deleted successfully.".
Proof.
  intros Hparse Hfind Honly.
  assert (∀ screens files,
            (∀ sid, screens !! sid ≠ Some (Some oid)) →
            flashed (delete_content content_id
                       (MkDb (content_collection db) screens files))
            = "Content deleted successfully.") as Hfree.
  { intros screens files Hnone. unfold delete_content.
    rewrite Hparse. simpl.
    destruct (decide (0 < _)) as [Hpos|_].
    - apply count_documents_pos_iff in Hpos as [sid Hsid].
      by destruct (Hnone sid).
    - by rewrite Hfind. }
  split.
  - rewrite assign_content_db. simpl. apply Hfree.
    intros sid Hsid. apply lookup_insert_Some in Hsid as [[_ [=]]|[Hne Hsid]].
    by apply (Honly sid).
  - simpl. apply Hfree.
    intros sid Hsid. apply lookup_delete_Some in Hsid as [Hne Hsid].
    by apply (Honly sid).
Qed.

(** ** Assigning content that exists *)

Lemma filter_unique_content oid coll c :
  NoDup (_id <$> coll) →
  content_find_one oid coll = Some c →
  filter (λ d, _id d = oid) coll = [c].
Proof.
  unfold content_find_one.
  induction coll as [|d coll IH]; [done|].
  rewrite fmap_cons. intros [Hd Hnodup]%NoDup_cons. simpl.
  rewrite filter_cons.
  case_bool_decide as Hid; destruct (decide (_id d = oid)) as [Hd'|Hd'];
    try done.
  - intros [= ->]. f_equal. apply filter_drops_all, Forall_forall.
    intros other Hother Heq. apply Hd. rewrite Hid, <- Heq.
    by apply list_elem_of_fmap_2.
  - by apply IH.
Qed.

Lemma index_row_with_content sid ref c :
  index_project (Unwound sid ref (Some c))
  = {[ "id" := VStr sid; "assigned_content_id" := value_of_ref ref;
       "filename" := VStr (filename c) ]}.
Proof.
  unfold index_project, set_field. simpl.
  apply map_eq. intros k.
  destruct (decide (k = "id")) as [->|]; [by simplify_map_eq|].
  destruct (decide (k = "assigned_content_id")) as [->|];
    [by simplify_map_eq|].
  destruct (decide (k = "filename")) as [->|]; by simplify_map_eq.
Qed.

Lemma manage_row_with_content sid ref c :
  manage_screens_project (Unwound sid ref (Some c))
  = {[ "_id" := VStr sid; "id" := VStr sid;
       "assigned_content_id" := value_of_ref ref;
       "filename" := VStr (filename c) ]}.
Proof.
  unfold manage_screens_project, set_field. simpl.
  apply map_eq. intros k.
  destruct (decide (k = "_id")) as [->|]; [by simplify_map_eq|].
  destruct (decide (k = "id")) as [->|]; [by simplify_map_eq|].
  destruct (decide (k = "assigned_content_id")) as [->|];
    [by simplify_map_eq|].
  destruct (decide (k = "filename")) as [->|]; by simplify_map_eq.
Qed.

(** X8: assigning the id of an existing content document and then
    resolving the screen finds that document: the handler reports
    success, the poll returns its id, file name, URL and MIME type without
    a message and without changing the database, and, content ids being
    unique, the screen's single row in either listing carries the id and
    the file name. *)
Theorem assign_existing_content screen_id content_id oid c db :
  ObjectId_of_str content_id = Some oid →
  content_find_one oid (content_collection db) = Some c →
  let r := assign_content InvalidId_text screen_id content_id db in
  let db' := db_after r in
  flashed r = "Content assigned to screen " +:+ screen_id +:+ " successfully!"
  ∧ get_screen_content url_for_static screen_id db'
    = (ResponseData screen_id
         (Some (ContentJson (ObjectId_str oid) (filename c)
                            (url_for_static ("uploads/" +:+ filename c))
                            (mimetype c)))
         None, db')
  ∧ (unique_content_ids db →
     screen_rows screen_id (ip_screens (index db'))
     = [ {[ "id" := VStr screen_id; "assigned_content_id" := VOid oid;
            "filename" := VStr (filename c) ]} ]
     ∧ screen_rows screen_id (sp_screens (manage_screens db'))
       = [ {[ "_id" := VStr screen_id; "id" := VStr screen_id;
              "assigned_content_id" := VOid oid;
              "filename" := VStr (filename c) ]} ]).
Proof.
  intros Hparse Hfind r db'. subst db'.
  pose proof (ObjectId_of_str_nonempty _ _ Hparse) as Hne.
  pose proof (content_find_one_Some _ _ _ Hfind) as [_ Hid].
  assert (db_after r
          = MkDb (content_collection db)
                 (<[screen_id := Some oid]> (screens_collection db))
                 (upload_folder db)) as ->.
  { subst r. rewrite assign_content_db.
    destruct (decide (content_id = "")); [done|]. by rewrite Hparse. }
  set (db' := MkDb _ _ _).
  split.
  { subst r. unfold assign_content, assign_content_among,
      assign_content_write, assign_content_verify.
    destruct (decide (content_id ≠ "")) as [_|]; [|done].
    rewrite Hparse. simpl. rewrite lookup_insert_eq.
    by destruct (decide (content_id ≠ "" ∧ Some oid = Some oid)) as [_|[]]. }
  split.
  { unfold get_screen_content. simpl. rewrite lookup_insert_eq, Hfind.
    by rewrite Hid. }
  intros Huniq. split.
  - unfold index.
    rewrite (screen_rows_of_db _ index_project_id db' _ (Some oid))
      by apply lookup_insert_eq.
    unfold lookup_stage, unwind_stage. simpl.
    rewrite (filter_unique_content _ _ c Huniq Hfind). simpl.
    by rewrite index_row_with_content.
  - unfold manage_screens.
    rewrite (screen_rows_of_db _ manage_screens_project_id db' _ (Some oid))
      by apply lookup_insert_eq.
    unfold lookup_stage, unwind_stage. simpl.
    rewrite (filter_unique_content _ _ c Huniq Hfind). simpl.
    by rewrite manage_row_with_content.
Qed.

(** X9: a content id that is not empty and either is not 24 characters
    long or holds a character other than a hexadecimal digit or ASCII
    white space is turned away by [assign_content] with the invalid-id
    message; the database stays as it was, so an unknown screen is not
    created. *)
Theorem assign_content_rejects_bad_id screen_id content_id db :
  content_id ≠ "" →
  String.length content_id ≠ 24 ∨ only_hex_and_space content_id = false →
  assign_content InvalidId_text screen_id content_id db
  = Redirected ("Invalid content ID selected: " +:+ InvalidId_text content_id)
               ep_manage_screens db.
Proof.
  intros Hne Hbad.
  assert (ObjectId_of_str content_id = None) as Hparse.
  { destruct (ObjectId_of_str content_id) as [oid|] eqn:Hparse; [|done].
    apply ObjectId_of_str_Some in Hparse as [Hlen Hhex].
    apply fromhex_facts in Hhex as (Honly & _).
    destruct Hbad as [Hbad|Hbad]; [done|]. by rewrite Honly in Hbad. }
  unfold assign_content, assign_content_among, assign_content_write.
  destruct (decide (content_id ≠ "")); [|done]. by rewrite Hparse.
Qed.

(** X10: [assign_content] is an upsert on one key.  The last assignment
    to a screen decides its record, whatever was assigned before, and no
    assignment touches another screen, the content collection or the
    uploaded files. *)
Theorem assign_content_last_wins screen_id first second db :
  second = "" ∨ is_Some (ObjectId_of_str second) →
  let once := db_after (assign_content InvalidId_text screen_id second db) in
  db_after (assign_content InvalidId_text screen_id second
              (db_after (assign_content InvalidId_text screen_id first db)))
  = once
  ∧ (∀ other, other ≠ screen_id →
       screens_collection once !! other = screens_collection db !! other)
  ∧ content_collection once = content_collection db
  ∧ upload_folder once = upload_folder db.
Proof.
  intros Hsecond once. subst once. rewrite !assign_content_db.
  assert (∃ obj, (if decide (second = "") then Some None
                  else Some <$> ObjectId_of_str second) = Some obj)
    as [obj ->].
  { destruct Hsecond as [->|[o Ho]]; [by eexists|].
    destruct (decide (second = "")); [by eexists|].
    rewrite Ho. by eexists. }
  split.
  - destruct (if decide (first = "") then _ else _); simpl; [|done].
    by rewrite insert_insert_eq.
  - simpl. split; [|done]. intros other Hne. by apply lookup_insert_ne.
Qed.

(** ** Deleting and polling screens *)

(** X11: [delete_screen] is idempotent: deleting a screen that has no
    record leaves the database as it is, a second deletion changes
    nothing more, and the records of other screens are kept. *)
Theorem delete_screen_idempotent screen_id db :
  let once := db_after (delete_screen screen_id db) in
  db_after (delete_screen screen_id once) = once
  ∧ (screens_collection db !! screen_id = None → once = db)
  ∧ (∀ other, other ≠ screen_id →
       screens_collection once !! other = screens_collection db !! other).
Proof.
  simpl. split; [|split].
  - by rewrite delete_delete_eq.
  - intros Hnone. rewrite delete_id by done. by destruct db.
  - intros other Hne. by apply lookup_delete_ne.
Qed.

Lemma poll_registered screen_id ref db :
  screens_collection db !! screen_id = Some ref →
  (get_screen_content url_for_static screen_id db).2 = db.
Proof.
  intros Hs. unfold get_screen_content. rewrite Hs.
  destruct ref as [oid|]; [|done].
  by destruct (content_find_one oid (content_collection db)).
Qed.

Lemma poll_unknown screen_id db :
  screens_collection db !! screen_id = None →
  (get_screen_content url_for_static screen_id db).2
  = MkDb (content_collection db)
         (<[screen_id := None]> (screens_collection db))
         (upload_folder db).
Proof. intros Hs. unfold get_screen_content. by rewrite Hs. Qed.

Lemma poll_response_shape screen_id db :
  let response := (get_screen_content url_for_static screen_id db).1 in
  rd_screen_id response = screen_id
  ∧ (rd_content response = None ↔ is_Some (rd_message response)).
Proof.
  unfold get_screen_content.
  destruct (screens_collection db !! screen_id) as [[oid|]|];
    [destruct (content_find_one oid (content_collection db))| |];
    simpl; (split; [done|]); split; try done; by eexists.
Qed.

(** X12: a poll changes the database only for a screen without a
    record, and then only by adding that screen; the assignment of a
    registered screen, the other screens, the content and the files are
    never changed, and a second poll changes nothing.  The response names
    the polled screen and carries a message exactly when it carries no
    content. *)
Theorem poll_effect screen_id db :
  let '(response, db1) := get_screen_content url_for_static screen_id db in
  (db1 ≠ db ↔ screens_collection db !! screen_id = None)
  ∧ (get_screen_content url_for_static screen_id db1).2 = db1
  ∧ (∀ ref, screens_collection db !! screen_id = Some ref →
            screens_collection db1 !! screen_id = Some ref)
  ∧ (∀ other, other ≠ screen_id →
       screens_collection db1 !! other = screens_collection db !! other)
  ∧ content_collection db1 = content_collection db
  ∧ upload_folder db1 = upload_folder db
  ∧ rd_screen_id response = screen_id
  ∧ (rd_content response = None ↔ is_Some (rd_message response)).
Proof.
  pose proof (poll_response_shape screen_id db) as Hshape.
  destruct (get_screen_content url_for_static screen_id db)
    as [response db1] eqn:Hpoll.
  assert (db1 = (get_screen_content url_for_static screen_id db).2) as Hdb1
    by by rewrite Hpoll.
  simpl in Hshape. destruct Hshape as [Hname Hmessage].
  destruct (screens_collection db !! screen_id) as [ref|] eqn:Hs.
  - rewrite (poll_registered _ _ _ Hs) in Hdb1. subst db1.
    split; [by split|]. split; [by apply (poll_registered _ ref)|].
    split; [by intros ? <-|]. by split_and!.
  - rewrite (poll_unknown _ _ Hs) in Hdb1. subst db1.
    split.
    { split; [done|]. intros _ Heq.
      apply (f_equal (λ d, screens_collection d !! screen_id)) in Heq.
      simpl in Heq. by rewrite lookup_insert_eq, Hs in Heq. }
    split.
    { apply (poll_registered _ None). simpl. apply lookup_insert_eq. }
    split; [done|]. split; [|done].
    intros other Hne. simpl. by apply lookup_insert_ne.
Qed.

(** X13: a deleted screen that polls again is registered anew without
    content, whatever it showed before: deleting a screen and polling it
    leaves the database that unassigning the screen would have left. *)
Theorem deleted_screen_registers_anew screen_id db :
  get_screen_content url_for_static screen_id
    (db_after (delete_screen screen_id db))
  = (ResponseData screen_id None
       (Some "Screen registered. No content assigned yet."),
     db_after (assign_content InvalidId_text screen_id "" db)).
Proof.
  rewrite assign_content_db. unfold get_screen_content. simpl.
  rewrite lookup_delete_eq. by rewrite insert_delete_eq.
Qed.

(** ** Size of the listings *)

Lemma unwind_lookup_single_length content k ref :
  (1 ≤ length (unwind_stage (lookup_stage content [(k, ref)])))%nat
  ∧ (NoDup (_id <$> content) →
     length (unwind_stage (lookup_stage content [(k, ref)])) = 1%nat).
Proof.
  unfold unwind_stage, lookup_stage. simpl. rewrite app_nil_r.
  destruct ref as [oid|]; [|done].
  destruct (filter (λ c, _id c = oid) content) as [|c [|c' cs]] eqn:Hfilter;
    simpl; [done|done|].
  split; [lia|]. intros Hnodup. exfalso.
  assert (content_find_one oid content = Some c) as Hfind
    by by rewrite content_find_one_filter, Hfilter.
  by rewrite (filter_unique_content _ _ _ Hnodup Hfind) in Hfilter.
Qed.

Lemma unwind_lookup_length content l :
  (length l ≤ length (unwind_stage (lookup_stage content l)))%nat
  ∧ (NoDup (_id <$> content) →
     length (unwind_stage (lookup_stage content l)) = length l).
Proof.
  induction l as [|[k ref] l [IHle IHeq]]; [done|].
  rewrite unwind_lookup_cons, length_app.
  change (length ((k, ref) :: l)) with (S (length l)).
  destruct (unwind_lookup_single_length content k ref) as [Hle Heq].
  split; [lia|]. intros Hnodup. by rewrite (Heq Hnodup), (IHeq Hnodup).
Qed.

(** X14: the join never drops a screen, and with unique content ids it
    never repeats one: both listings have at least as many rows as there
    are screens, exactly as many when no two content documents share an
    id, and every row belongs to a registered screen. *)
Theorem listing_one_row_per_screen db :
  let home := ip_screens (index db) in
  let managed := sp_screens (manage_screens db) in
  length home = length managed
  ∧ (size (screens_collection db) ≤ length home)%nat
  ∧ (unique_content_ids db → length home = size (screens_collection db))
  ∧ (∀ row, row ∈ home →
       ∃ screen_id, row !! "id" = Some (VStr screen_id)
                    ∧ is_Some (screens_collection db !! screen_id)).
Proof.
  unfold index, manage_screens. simpl. rewrite !length_fmap.
  destruct (unwind_lookup_length (content_collection db)
              (map_to_list (screens_collection db))) as [Hle Heq].
  rewrite length_map_to_list in Hle, Heq.
  split; [done|]. split; [done|]. split; [done|].
  intros row (d & -> & Hd)%list_elem_of_fmap.
  exists (uw_id d). split; [apply index_project_id|].
  clear Hle Heq.
  assert (uw_id d ∈ (map_to_list (screens_collection db)).*1) as Hin.
  { induction (map_to_list (screens_collection db)) as [|[k ref] l IH];
      [by apply elem_of_nil in Hd|].
    rewrite unwind_lookup_cons in Hd. rewrite fmap_cons.
    apply elem_of_app in Hd as [Hd|Hd].
    - apply unwind_lookup_single_id in Hd. rewrite Hd. by left.
    - right. by apply IH. }
  apply list_elem_of_fmap in Hin as ([k ref] & -> & Hin).
  apply elem_of_map_to_list in Hin. by exists ref.
Qed.

(** ** Printed content ids *)

(** X15: for an accepted content id spelled without white space, as the
    ids the driver generates are, the text that [index] prints is
    accepted again and names the same id, so [delete_content] and
    [assign_content] answer the printed id as they answer the spelling
    first parsed, in either letter case.  An id accepted from a spelling
    with white space has fewer than twelve bytes, and its printed text is
    refused. *)
Theorem ObjectId_round_trip content_id oid :
  ObjectId_of_str content_id = Some oid →
  (has_space content_id = false →
     ObjectId_of_str (ObjectId_str oid) = Some oid
     ∧ (∀ db, delete_content (ObjectId_str oid) db
              = delete_content content_id db)
     ∧ (∀ screen_id db,
          assign_content InvalidId_text screen_id (ObjectId_str oid) db
          = assign_content InvalidId_text screen_id content_id db))
  ∧ (has_space content_id = true →
       ObjectId_of_str (ObjectId_str oid) = None).
Proof.
  intros Hparse.
  destruct (ObjectId_of_str_Some _ _ Hparse) as [Hlen Hhex].
  destruct (fromhex_facts _ _ Hhex) as (_ & Heq & Hlt & Hfix).
  destruct oid as [h]. simpl in *.
  split.
  - intros Hnospace.
    assert (ObjectId_of_str h = Some (Oid h)) as Hback.
    { unfold ObjectId_of_str. rewrite (Heq Hnospace), Hlen.
      destruct (decide (24 = 24)); [|done]. by rewrite Hfix. }
    split; [done|]. split.
    + intros db. unfold delete_content. by rewrite Hparse, Hback.
    + intros screen_id db.
      pose proof (ObjectId_of_str_nonempty _ _ Hparse) as Hne.
      pose proof (ObjectId_of_str_nonempty _ _ Hback) as Hne'.
      unfold assign_content, assign_content_among, assign_content_write,
        assign_content_verify.
      destruct (decide (content_id ≠ "")); [|done].
      destruct (decide (h ≠ "")); [|done].
      rewrite Hparse, Hback. simpl. rewrite lookup_insert_eq.
      destruct (decide (h ≠ "" ∧ Some (Oid h) = Some (Oid h)))
        as [_|[]]; [|done].
      by destruct (decide (content_id ≠ "" ∧ Some (Oid h) = Some (Oid h)))
        as [_|[]].
  - intros Hspace. specialize (Hlt Hspace).
    unfold ObjectId_of_str. destruct (decide _) as [Hlen'|]; [lia|done].
Qed.

(** ** Uploading *)

(** X16: [upload_file] stores something exactly when the request is a
    POST whose body is no longer than [MAX_CONTENT_LENGTH] (16 MiB), with
    a file part whose name is not empty and passes [allowed_file]; only
    then does it redirect to the home page.  What it stores is one
    content document, appended with the secured name, the path under
    [/static/uploads/], the MIME type and the date, and the file under
    the secured name; files already there stay and the screens are
    untouched.  A POST with a longer body is answered 413 without a
    message, and every request that is not accepted leaves the database
    as it was. *)
Theorem upload_file_stores_iff now inserted_id request db :
  let r := upload_file secure_filename extensions_as_iterated
             now inserted_id request db in
  let accepted :=
    req_method request = POST
    ∧ (req_content_length request ≤ MAX_CONTENT_LENGTH)%Z
    ∧ ∃ file, req_file request = Some file
              ∧ fs_filename file ≠ ""
              ∧ allowed_file (fs_filename file) = true in
  (up_db r ≠ db ↔ accepted)
  ∧ (up_target r = to_index ↔ accepted)
  ∧ (req_method request = POST →
     (MAX_CONTENT_LENGTH < req_content_length request)%Z →
     up_target r = too_large ∧ up_flashed r = None)
  ∧ (MAX_CONTENT_LENGTH = 16777216)%Z
  ∧ (∀ file, req_file request = Some file → accepted →
       let name := secure_filename (fs_filename file) in
       content_collection (up_db r)
       = content_collection db
         ++ [ContentDoc inserted_id name ("/static/uploads/" +:+ name)
                        (fs_mimetype file) now]
       ∧ name ∈ upload_folder (up_db r)
       ∧ upload_folder db ⊆ upload_folder (up_db r)
       ∧ screens_collection (up_db r) = screens_collection db).
Proof.
  unfold upload_file.
  destruct (req_method request) eqn:Hmethod.
  { simpl. split_and!; try done.
    - split; [done|]. by intros [? _].
    - split; [done|]. by intros [? _].
    - by intros file _ [? _]. }
  destruct (decide (MAX_CONTENT_LENGTH < req_content_length request)%Z)
    as [Hlong|Hshort].
  { simpl. split_and!; try done.
    - split; [done|]. intros (_ & Hle & _). lia.
    - split; [done|]. intros (_ & Hle & _). lia.
    - intros file _ (_ & Hle & _). lia. }
  destruct (req_file request) as [file|] eqn:Hfile.
  2: { simpl. split_and!; try done; try lia.
       - split; [done|]. by intros (_ & _ & f & ? & _).
       - split; [done|]. by intros (_ & _ & f & ? & _). }
  destruct (decide (fs_filename file = "")) as [Hempty|Hname].
  { simpl. split_and!; try done; try lia.
    - split; [done|]. intros (_ & _ & f & Hf & Hne & _).
      injection Hf as <-. done.
    - split; [done|]. intros (_ & _ & f & Hf & Hne & _).
      injection Hf as <-. done.
    - intros f _ (_ & _ & f' & Hf & Hne & _). injection Hf as <-. done. }
  destruct (allowed_file (fs_filename file)) eqn:Hallowed.
  2: { simpl. split_and!; try done; try lia.
       - split; [done|]. intros (_ & _ & f & Hf & _ & Hok).
         injection Hf as <-. by rewrite Hallowed in Hok.
       - split; [done|]. intros (_ & _ & f & Hf & _ & Hok).
         injection Hf as <-. by rewrite Hallowed in Hok.
       - intros f _ (_ & _ & f' & Hf & _ & Hok).
         injection Hf as <-. by rewrite Hallowed in Hok. }
  simpl. split_and!; try done; try lia.
  - split; [intros _; split; [done|]; split; [lia|]; by exists file|].
    intros _ Heq.
    apply (f_equal (λ d, length (content_collection d))) in Heq.
    simpl in Heq. unfold content_insert_one in Heq.
    rewrite length_app in Heq. simpl in Heq. lia.
  - split; [intros _; split; [done|]; split; [lia|]; by exists file|done].
  - intros f Hf _. injection Hf as <-. simpl. split; [done|].
    split; [apply elem_of_union_l; by apply elem_of_singleton|].
    split; [apply union_subseteq_r|done].
Qed.

(** X17: an accepted upload stamped later than every stored document
    stands first in the content listing of the home page, with the
    printed form of its new id. *)
Theorem upload_listed_first now inserted_id content_length file db :
  (content_length ≤ MAX_CONTENT_LENGTH)%Z →
  fs_filename file ≠ "" →
  allowed_file (fs_filename file) = true →
  (∀ c, c ∈ content_collection db → (upload_date c < now)%Z) →
  let r := upload_file secure_filename extensions_as_iterated
             now inserted_id
             (UploadRequest POST content_length (Some file)) db in
  let name := secure_filename (fs_filename file) in
  head (ip_content (index (up_db r)))
  = Some (ContentDoc inserted_id name ("/static/uploads/" +:+ name)
                     (fs_mimetype file) now,
          ObjectId_str inserted_id).
Proof.
  intros Hsize Hname Hallowed Holder r name. subst r.
  unfold upload_file. simpl.
  destruct (decide (MAX_CONTENT_LENGTH < content_length)%Z); [lia|].
  destruct (decide (fs_filename file = "")); [done|].
  rewrite Hallowed. unfold index. simpl.
  set (doc := ContentDoc inserted_id name ("/static/uploads/" +:+ name)
                         (fs_mimetype file) now).
  fold name. fold doc.
  pose proof (cursor_sort_perm upload_date (-1)
                (content_insert_one doc (content_collection db))) as Hperm.
  pose proof (newest_first_sorted
                (content_insert_one doc (content_collection db))) as Hsorted.
  destruct (cursor_sort upload_date (-1) _) as [|h t] eqn:Hlisting.
  { apply Permutation_nil_l in Hperm. unfold content_insert_one in Hperm.
    by destruct (content_collection db). }
  simpl. f_equal.
  assert (h = doc) as ->; [|done].
  assert (h ∈ content_insert_one doc (content_collection db)) as Hh
    by (rewrite <- Hperm; left).
  unfold content_insert_one in Hh.
  apply elem_of_app in Hh as [Hh|Hh%list_elem_of_singleton]; [|done].
  exfalso. apply Holder in Hh.
  assert (doc ∈ h :: t) as Hdoc.
  { rewrite Hperm. unfold content_insert_one. apply elem_of_app. right.
    by left. }
  apply elem_of_cons in Hdoc as [Hdoc|Hdoc].
  { rewrite <- Hdoc in Hh. simpl in Hh. lia. }
  apply (Sorted_StronglySorted newer_first) in Hsorted.
  apply StronglySorted_cons in Hsorted as [Hall _].
  rewrite Forall_forall in Hall. specialize (Hall doc Hdoc).
  unfold newer_first in Hall. simpl in Hall. lia.
Qed.

(** X18: the file of a content document is removed by name, so when two
    documents carry the same file name, as two uploads of one file do,
    deleting one of them takes the file away from the other, which stays
    in the collection. *)
Theorem delete_content_removes_shared_file content_id oid c other db :
  ObjectId_of_str content_id = Some oid →
  countAssignedTo oid db = 0 →
  content_find_one oid (content_collection db) = Some c →
  other ∈ content_collection db →
  _id other ≠ oid →
  filename other = filename c →
  let db' := db_after (delete_content content_id db) in
  other ∈ content_collection db'
  ∧ content_find_one (_id other) (content_collection db')
    = content_find_one (_id other) (content_collection db)
  ∧ (filename other ∉ upload_folder db').
Proof.
  intros Hparse Hcount Hfind Hother Hid Hname db'. subst db'.
  rewrite (delete_content_success _ _ _ _ Hparse Hcount Hfind). simpl.
  split; [by apply content_delete_one_keeps|].
  split; [by apply content_delete_one_find_other|].
  rewrite Hname, remove_if_exists_spec. by intros [_ Hne].
Qed.

End MoreHandlerProperties.

(** ** The further theorems at sample databases *)

Lemma db_showing_no_dangling : no_dangling db_showing.
Proof.
  intros sid oid Hsid. simpl in Hsid.
  apply lookup_singleton_Some in Hsid as [_ Hoid]. injection Hoid as <-.
  exists poster. split; [|done]. simpl. by left.
Qed.

Lemma delete_content_removes_witness :
  let r := delete_content "65f0a1b2c3d4e5f601234567" db_idle in
  flashed r = "Content deleted successfully."
  ∧ content_collection (db_after r) = []
  ∧ ("poster.png" ∉ upload_folder (db_after r)).
Proof.
  destruct (delete_content_removes "65f0a1b2c3d4e5f601234567" oid_a poster
              db_idle eq_refl eq_refl eq_refl)
    as (Hflash & _ & Hlength & _ & _ & Hfile & _).
  split; [exact Hflash|]. split; [|exact Hfile].
  simpl in Hlength.
  by destruct (content_collection (db_after (delete_content _ db_idle))).
Defined.

Lemma delete_content_keeps_integrity_witness :
  no_dangling (db_after (delete_content "65f0a1b2c3d4e5f601234567" db_showing)).
Proof.
  apply (delete_content_keeps_integrity "65f0a1b2c3d4e5f601234567" db_showing).
  apply db_showing_no_dangling.
Defined.

Lemma handlers_keep_integrity_witness :
  no_dangling (db_after (delete_screen "lobby" db_showing))
  ∧ no_dangling (get_screen_content sample_url "hall" db_showing).2.
Proof.
  destruct (handlers_keep_integrity sample_url sample_invalid_id
              sample_secure_filename sample_extension_order db_showing
              db_showing_no_dangling) as (Hdelete & Hpoll & _).
  split; [apply Hdelete|apply Hpoll].
Defined.

Lemma release_then_delete_witness :
  flashed (delete_content "65f0a1b2c3d4e5f601234567"
             (db_after (assign_content sample_invalid_id "lobby" ""
                                       db_showing)))
  = "Content deleted successfully."
  ∧ flashed (delete_content "65f0a1b2c3d4e5f601234567"
               (db_after (delete_screen "lobby" db_showing)))
    = "Content deleted successfully.".
Proof.
  apply (release_then_delete sample_invalid_id "lobby"
           "65f0a1b2c3d4e5f601234567" oid_a poster db_showing).
  - reflexivity.
  - reflexivity.
  - intros other Hne Hother. simpl in Hother.
    apply lookup_singleton_Some in Hother as [Hsame _]. by apply Hne.
Defined.

Lemma assign_existing_content_witness :
  let r := assign_content sample_invalid_id "lobby"
             "65f0a1b2c3d4e5f601234567" db_idle in
  flashed r = "Content assigned to screen lobby successfully!"
  ∧ (get_screen_content sample_url "lobby" (db_after r)).1
    = ResponseData "lobby"
        (Some (ContentJson "65f0a1b2c3d4e5f601234567" "poster.png"
                 "http://signage.local/static/uploads/poster.png"
                 "image/png"))
        None.
Proof.
  destruct (assign_existing_content sample_url sample_invalid_id
              "lobby" "65f0a1b2c3d4e5f601234567" oid_a poster db_idle
              eq_refl eq_refl) as (Hflash & Hpoll & _).
  split; [exact Hflash|]. by rewrite Hpoll.
Defined.

Lemma assign_content_rejects_bad_id_witness :
  assign_content sample_invalid_id "lobby" "poster" db_idle
  = Redirected ("Invalid content ID selected: " +:+ sample_invalid_id "poster")
               ep_manage_screens db_idle.
Proof.
  apply (assign_content_rejects_bad_id sample_invalid_id "lobby" "poster"
           db_idle).
  - discriminate.
  - left. simpl. lia.
Defined.

Lemma assign_content_last_wins_witness :
  db_after (assign_content sample_invalid_id "lobby" ""
              (db_after (assign_content sample_invalid_id "lobby"
                           "65f0a1b2c3d4e5f601234567" db_idle)))
  = db_after (assign_content sample_invalid_id "lobby" "" db_idle).
Proof.
  apply (assign_content_last_wins sample_invalid_id "lobby"
           "65f0a1b2c3d4e5f601234567" "" db_idle).
  by left.
Defined.

Lemma ObjectId_round_trip_witness :
  (ObjectId_of_str (ObjectId_str oid_a) = Some oid_a
   ∧ delete_content (ObjectId_str oid_a) db_showing
     = delete_content "65F0A1B2C3D4E5F601234567" db_showing)
  ∧ ObjectId_of_str "65f0a1b2c3d4e5f6012345  "
    = Some (Oid "65f0a1b2c3d4e5f6012345")
  ∧ ObjectId_of_str (ObjectId_str (Oid "65f0a1b2c3d4e5f6012345")) = None.
Proof.
  split; [|split; [reflexivity|]].
  - destruct (ObjectId_round_trip sample_invalid_id
                "65F0A1B2C3D4E5F601234567" oid_a eq_refl) as [Hround _].
    destruct (Hround eq_refl) as (Hback & Hdelete & _).
    split; [exact Hback|apply Hdelete].
  - destruct (ObjectId_round_trip sample_invalid_id
                "65f0a1b2c3d4e5f6012345  " (Oid "65f0a1b2c3d4e5f6012345")
                eq_refl) as [_ Hrefused].
    exact (Hrefused eq_refl).
Defined.

Lemma upload_listed_first_witness :
  head (ip_content (index (post_poster 2000 oid_b db_idle)))
  = Some (second_poster, "65f0a1b2c3d4e5f601234568").
Proof.
  apply (upload_listed_first sample_secure_filename sample_extension_order
           2000 oid_b 20480 poster_file db_idle).
  - unfold MAX_CONTENT_LENGTH. lia.
  - discriminate.
  - reflexivity.
  - intros c Hc. simpl in Hc. apply list_elem_of_singleton in Hc.
    subst c. simpl. lia.
Defined.

Lemma delete_content_removes_shared_file_witness :
  let db' := db_after (delete_content "65f0a1b2c3d4e5f601234567"
                                      db_posted_twice) in
  second_poster ∈ content_collection db'
  ∧ content_find_one oid_b (content_collection db')
    = content_find_one oid_b (content_collection db_posted_twice)
  ∧ ("poster.png" ∉ upload_folder db').
Proof.
  apply (delete_content_removes_shared_file "65f0a1b2c3d4e5f601234567"
           oid_a poster second_poster db_posted_twice).
  - reflexivity.
  - reflexivity.
  - reflexivity.
  - change (second_poster ∈ [poster; second_poster]). right. by left.
  - discriminate.
  - reflexivity.
Defined.
